(** * V_Sim ascii reader and writer of ASE (ase/io/v_sim.py)

    A shallow embedding of [read_v_sim] and [write_v_sim].  A Python [str]
    is a [string] whose characters are the code points 0..255; a text
    stream is the string of characters it delivers.  Numbers are kept
    abstract (a type [num] with the operations the source applies to
    them), because [float], [units.Bohr], the cell-parameter conversions
    and the [Atoms] class live outside ase/io/v_sim.py. *)

From Stdlib Require Import String Ascii List Bool Arith NArith ZArith QArith Qabs Qround Lia.
Import ListNotations.
Open Scope string_scope.

(** ** Python string primitives *)

Module Py.

Definition code (c : ascii) : N := N_of_ascii c.

Definition between (lo hi : N) (c : ascii) : bool :=
  (N.leb lo (code c) && N.leb (code c) hi)%bool.

(** [str.isspace] and the regular expression class [\s] on the code points
    0..255: TAB..CR, FS..US, space, NEL and the no-break space. *)
Definition isspace (c : ascii) : bool :=
  (between 9 13 c || between 28 32 c || N.eqb (code c) 133 || N.eqb (code c) 160)%bool.

(** [str.lower] on one code point of 0..255. *)
Definition lower_char (c : ascii) : ascii :=
  if (between 65 90 c || between 192 214 c || between 216 222 c)%bool
  then ascii_of_N (code c + 32) else c.

Fixpoint smap (f : ascii -> ascii) (s : string) : string :=
  match s with
  | EmptyString => EmptyString
  | String c r => String (f c) (smap f r)
  end.

Definition lower (s : string) : string := smap lower_char s.

Definition comma_to_space (c : ascii) : ascii :=
  if Ascii.eqb c "," then " "%char else c.

(** [s.replace(',', ' ')] *)
Definition replace_comma (s : string) : string := smap comma_to_space s.

(** [s[:n]] and [s[n:]] *)
Fixpoint slice_to (n : nat) (s : string) : string :=
  match n, s with
  | S k, String c r => String c (slice_to k r)
  | _, _ => EmptyString
  end.

Fixpoint slice_from (n : nat) (s : string) : string :=
  match n, s with
  | S k, String _ r => slice_from k r
  | _, _ => s
  end.

(** Splitting at the characters of a class, dropping empty pieces;
    [split] is [str.split()] without arguments. *)
Fixpoint split_by (sep : ascii -> bool) (s : string) : list string :=
  match s with
  | EmptyString => []
  | String c r =>
      if sep c then split_by sep r
      else match r with
           | EmptyString => [String c EmptyString]
           | String d _ =>
               if sep d then String c EmptyString :: split_by sep r
               else match split_by sep r with
                    | t :: ts => String c t :: ts
                    | [] => [String c EmptyString]
                    end
           end
  end.

Definition split : string -> list string := split_by isspace.

Definition is_newline (c : ascii) : bool := N.eqb (code c) 10.

(** The newline character and the one-character string ['\n']. *)
Definition newline : ascii := ascii_of_N 10.
Definition nl : string := String newline EmptyString.

(** [fd.readline()] on the characters still to be delivered: the line with
    its newline, and what is left of the stream; [""] at the end. *)
Fixpoint readline (s : string) : string * string :=
  match s with
  | EmptyString => (EmptyString, EmptyString)
  | String c r =>
      if is_newline c then (String c EmptyString, r)
      else let (l, r') := readline r in (String c l, r')
  end.

(** All the lines successive [readline] calls deliver before [""]. *)
Fixpoint readlines (s : string) : list string :=
  match s with
  | EmptyString => []
  | String c r =>
      if is_newline c then String c EmptyString :: readlines r
      else match readlines r with
           | l :: ls => String c l :: ls
           | [] => [String c EmptyString]
           end
  end.

(** [x in keywords] *)
Definition mem (x : string) (l : list string) : bool := existsb (String.eqb x) l.

(** *** The two regular expressions of the reader *)

(** [re.compile(r'^\s*[#!]').match(line)]: the text after the match
    ([line[p.end():]]), or [None]. *)
Definition is_marker (c : ascii) : bool :=
  (Ascii.eqb c "#" || Ascii.eqb c "!")%bool.

Fixpoint re_comment (line : string) : option string :=
  match line with
  | EmptyString => None
  | String c r =>
      if is_marker c then Some r
      else if isspace c then re_comment r
      else None
  end.

Fixpoint skip_space (s : string) : string :=
  match s with
  | String c r => if isspace c then skip_space r else s
  | EmptyString => s
  end.

Fixpoint skip_nonspace (s : string) : string :=
  match s with
  | String c r => if isspace c then s else skip_nonspace r
  | EmptyString => s
  end.

(** [\S+] and [\s+]: both classes are complementary, so the greedy match is
    the only one. *)
Definition nonspace_plus (s : string) : option string :=
  match s with
  | String c r => if isspace c then None else Some (skip_nonspace r)
  | EmptyString => None
  end.

Definition space_plus (s : string) : option string :=
  match s with
  | String c r => if isspace c then Some (skip_space r) else None
  | EmptyString => None
  end.

Definition andThen {A B} (o : option A) (f : A -> option B) : option B :=
  match o with Some a => f a | None => None end.

(** [re.compile(r'^\s*\S+\s+\S+\s+\S+\s+\S+').match(line)] as a truth value. *)
Definition re_node (line : string) : bool :=
  match
    andThen (andThen (andThen (andThen (andThen (andThen
      (nonspace_plus (skip_space line))
      space_plus) nonspace_plus) space_plus) nonspace_plus) space_plus) nonspace_plus
  with Some _ => true | None => false end.

(** *** Comment lines *)

(** The tokens a comment line adds to [keywords], from the text after the
    marker: [line = line[p.end():].replace(',', ' ').lower()], then
    [if line[:8] == "keyword:": keywords.extend(line[8:].split())]. *)
Definition comment_keywords (rest : string) : list string :=
  let line := lower (replace_comma rest) in
  if String.eqb (slice_to 8 line) "keyword:" then split (slice_from 8 line)
  else [].

(** *** Vocabulary for statements about lines *)

(** The keywords one line of the body contributes. *)
Definition line_keywords (line : string) : list string :=
  match re_comment line with
  | Some rest => comment_keywords rest
  | None => []
  end.

(** The keywords of a body, whatever else its lines hold. *)
Definition keywords_of (fd : list string) : list string :=
  flat_map line_keywords fd.

(** A node line: not a comment line, and matched by [re_node]. *)
Definition is_node (line : string) : bool :=
  match re_comment line with
  | Some _ => false
  | None => re_node line
  end.

Definition is_comment (line : string) : bool :=
  match re_comment line with Some _ => true | None => false end.

Fixpoint all_chars (p : ascii -> bool) (s : string) : bool :=
  match s with
  | EmptyString => true
  | String c r => (p c && all_chars p r)%bool
  end.

(** A non-empty string without whitespace. *)
Definition is_token (s : string) : bool :=
  match s with
  | EmptyString => false
  | String _ _ => all_chars (fun c => negb (isspace c)) s
  end.

(** A token that does not begin with a comment marker. *)
Definition is_plain_token (s : string) : bool :=
  match s with
  | EmptyString => false
  | String c _ => (negb (is_marker c) && is_token s)%bool
  end.

(** A line the loop does something with: a node line, or a comment line
    that declares keywords. *)
Definition contributes (line : string) : bool :=
  (is_node line ||
   match line_keywords line with [] => false | _ :: _ => true end)%bool.

(** The keywords the reader tests for. *)
Definition tested_keywords : list string :=
  ["reduced"; "bohr"; "bohrd0"; "atomic"; "atomicd0"; "surface"; "freeBC"; "angdeg"].

(** Two keyword lists the tests of the reader cannot tell apart. *)
Definition same_flags (k k' : list string) : Prop :=
  forall x, In x tested_keywords -> mem x k = mem x k'.

(** At least [n] whitespace-separated tokens, by skipping over them. *)
Fixpoint tokens_ge (n : nat) (s : string) : bool :=
  match n with
  | O => true
  | S k =>
      match skip_space s with
      | EmptyString => false
      | String _ r => tokens_ge k (skip_nonspace r)
      end
  end.

(** Whitespace or a comma. *)
Definition comma_or_space (c : ascii) : bool :=
  (isspace c || Ascii.eqb c ",")%bool.


(** Tokens, one blank between them, and a newline. *)
Fixpoint spaced (ts : list string) : string :=
  match ts with
  | [] => nl
  | [t] => t ++ nl
  | t :: ts' => t ++ " " ++ spaced ts'
  end.

(** A line as [readline] returns it before the end of the stream: a text
    without newline, and the newline. *)
Definition is_line (l : string) : Prop :=
  exists b, l = b ++ nl /\ all_chars (fun c => negb (is_newline c)) b = true.

(** The keyword rule in the words of the specification: the body after the
    marker is trimmed first, then tested for the prefix [keyword:] without
    regard to case; the rest gives the tokens, commas counting as
    whitespace, folded to lowercase. *)
Definition spec_comment_keywords (rest : string) : list string :=
  let line := lower (replace_comma (skip_space rest)) in
  if String.eqb (slice_to 8 line) "keyword:" then split (slice_from 8 line)
  else [].

End Py.

Import Py.

(** ** Results *)

(** What the [Atoms] class raises when the object is built or its symbols
    are set: [KeyError], [ValueError], [AssertionError]. *)
Inductive atoms_error : Type :=
| KeyError
| ValueError
| AssertionError.

(** The exceptions of the module: [ValueError] (a token [float] refuses,
    an unpacking of the wrong length), [NotImplementedError] of the reader,
    the [Exception] of the writer, [IndexError], and what the [Atoms]
    class raises at the end of the reader. *)
Inductive error : Type :=
| MalformedInput
| UnsupportedFeature
| UnsupportedBoundaryCondition
| IndexError
| AtomsError (e : atoms_error).

Inductive result (A : Type) : Type :=
| OK (a : A)
| Err (e : error).
Arguments OK {A} a.
Arguments Err {A} e.

Definition bind {A B} (r : result A) (f : A -> result B) : result B :=
  match r with OK a => f a | Err e => Err e end.

Notation "x <- r ;; k" := (bind r (fun x => k))
  (at level 61, r at next level, right associativity).

(** ** The data the reader returns and the writer takes *)

(** What [read_v_sim] hands to the [Atoms] constructor: [positions=...]
    or [scaled_positions=...]. *)
Inductive coords (A : Type) : Type :=
| Cartesian (ps : list (A * A * A))
| Scaled (ps : list (A * A * A)).
Arguments Cartesian {A} ps.
Arguments Scaled {A} ps.

(** The positions, whichever way they are handed over. *)
Definition coords_list {A : Type} (c : coords A) : list (A * A * A) :=
  match c with
  | Cartesian ps => ps
  | Scaled ps => ps
  end.

(** The object [read_v_sim] returns, as the arguments it is built from:
    [Atoms(cell=cell, positions=... / scaled_positions=...)] followed by
    [set_chemical_symbols(symbols)].  The cell is the flat row-major list
    of its nine entries. *)
Record Atoms (A : Type) : Type := mkAtoms {
  cell : list A;
  positions : coords A;
  symbols : list string
}.
Arguments mkAtoms {A} cell positions symbols.
Arguments cell {A} a.
Arguments positions {A} a.
Arguments symbols {A} a.

(** What [write_v_sim] reads of the object it is given: [atoms.cell],
    [atoms.pbc] and the atoms with their chemical symbols. *)
Record Structure (A : Type) : Type := mkStructure {
  s_cell : list A;
  s_pbc : bool * bool * bool;
  s_atoms : list (A * A * A * string)
}.
Arguments mkStructure {A} s_cell s_pbc s_atoms.
Arguments s_cell {A} s.
Arguments s_pbc {A} s.
Arguments s_atoms {A} s.

(** The numbers of the program and what the source does with them; all
    of it lives outside ase/io/v_sim.py. *)
Class Numbers : Type := {
  num : Type;
  (** [float(token)]; [None] stands for [ValueError]. *)
  float_of : string -> option num;
  (** ['{0}'.format(x)] *)
  fmt : num -> string;
  (** [0.0], [1.0] and [units.Bohr] *)
  zero : num;
  one : num;
  Bohr : num;
  mul : num -> num -> num;
  add : num -> num -> num;
  (** [ase.geometry.cellpar_to_cell] on the list it is given, the result as
      the nine entries of the matrix in row-major order; [None] stands for
      the [ValueError] of an unpacking that does not fit. *)
  cellpar_to_cell : list num -> option (list num);
  (** [ase.geometry.cell_to_cellpar] *)
  cell_to_cellpar : list num -> list num;
  (** One row of [atoms.get_scaled_positions()]: the fractional coordinates
      of a position in the cell of the object, wrapped along the periodic
      axes. *)
  scaled_position : list num -> bool * bool * bool -> num * num * num -> num * num * num;
  (** What [Atoms(cell=cell, positions=... / scaled_positions=...)]
      followed by [atoms.set_chemical_symbols(symbols)] raises on a cell,
      positions and symbols; [None] when the object is built. *)
  atoms_check : list num -> coords num -> list string -> option atoms_error
}.

Section VSim.

Context {N : Numbers}.

Definition vec : Type := (num * num * num)%type.

(** *** [read_v_sim] *)

(** [for i in range(len(box)): box[i] = float(box[i])] *)
Fixpoint parse_box (toks : list string) : result (list num) :=
  match toks with
  | [] => OK []
  | t :: ts =>
      match float_of t with
      | None => Err MalformedInput
      | Some x => bs <- parse_box ts ;; OK (x :: bs)
      end
  end.

Definition bohr_family (keywords : list string) : bool :=
  (mem "bohr" keywords || mem "bohrd0" keywords ||
   mem "atomic" keywords || mem "atomicd0" keywords)%bool.

(** The state of the loop over the body: [keywords], [positions], [symbols]. *)
Definition scan_state : Type := (list string * list vec * list string)%type.

Definition node_unit (keywords : list string) : num :=
  if negb (mem "reduced" keywords) then
    if bohr_family keywords then Bohr else one
  else one.

(** [fields = line.split()] of a node line, with [float] applied to the
    first three fields; the regular expression guarantees four fields. *)
Definition node_fields (line : string) : result (vec * string) :=
  match split line with
  | f0 :: f1 :: f2 :: f3 :: _ =>
      match float_of f0 with
      | None => Err MalformedInput
      | Some x =>
          match float_of f1 with
          | None => Err MalformedInput
          | Some y =>
              match float_of f2 with
              | None => Err MalformedInput
              | Some z => OK ((x, y, z), f3)
              end
          end
      end
  | _ => Err IndexError
  end.

Definition scale (unit : num) (v : vec) : vec :=
  let '(x, y, z) := v in (mul unit x, mul unit y, mul unit z).

(** [[unit * float(fields[0]), unit * float(fields[1]), unit * float(fields[2])]]
    and [fields[3]] *)
Definition parse_node (unit : num) (line : string) : result (vec * string) :=
  a <- node_fields line ;; OK (scale unit (fst a), snd a).

(** One turn of the [while True] loop on a line that is not [""]. *)
Definition scan_line (st : scan_state) (line : string) : result scan_state :=
  let '(keywords, positions, symbols) := st in
  match re_comment line with
  | Some rest => OK ((keywords ++ comment_keywords rest)%list, positions, symbols)
  | None =>
      if re_node line then
        a <- parse_node (node_unit keywords) line ;;
        OK (keywords, (positions ++ [fst a])%list, (symbols ++ [snd a])%list)
      else OK st
  end.

Fixpoint scan (st : scan_state) (fd : list string) : result scan_state :=
  match fd with
  | [] => OK st
  | line :: fd' => st' <- scan_line st line ;; scan st' fd'
  end.

(** [cell.flat[idx] = vals]: numpy's flat iterator takes the values in turn
    and starts them again when they run out; nothing is stored when there
    are none. *)
Fixpoint set_nth (n : nat) (x : num) (l : list num) : list num :=
  match l, n with
  | [], _ => []
  | _ :: t, O => x :: t
  | h :: t, S k => h :: set_nth k x t
  end.

Fixpoint flat_assign_from (k : nat) (idx : list nat) (vals : list num)
    (c : list num) : list num :=
  match idx with
  | [] => c
  | i :: idx' =>
      flat_assign_from (S k) idx' vals
        (set_nth i (nth (k mod length vals) vals zero) c)
  end.

Definition flat_assign (idx : list nat) (vals : list num) (c : list num) : list num :=
  match vals with
  | [] => c
  | _ => flat_assign_from 0 idx vals c
  end.

(** [np.zeros((3, 3))] *)
Definition zeros9 : list num := repeat zero 9.

(** [cell = np.zeros((3, 3)); cell.flat[[0, 3, 4, 6, 7, 8]] = box[:6]] *)
Definition raw_cell (box : list num) : list num :=
  flat_assign [0; 3; 4; 6; 7; 8]%nat (firstn 6 box) zeros9.

(** [cell *= unit] *)
Definition scale_cell (unit : num) (c : list num) : list num :=
  map (fun x => mul x unit) c.

(** The cell of the branch without [angdeg]. *)
Definition triangular_cell (keywords : list string) (box : list num) : list num :=
  let unit := if bohr_family keywords then Bohr else one in
  scale_cell unit (raw_cell box).

(** [fd.readline()] on the lines still to come. *)
Definition pop (fd : list string) : string * list string :=
  match fd with
  | [] => (EmptyString, [])
  | l :: fd' => (l, fd')
  end.

Definition header_line (fd : list string) : string :=
  fst (pop (tl fd)) ++ " " ++ fst (pop (snd (pop (tl fd)))).

Definition body (fd : list string) : list string :=
  snd (pop (snd (pop (tl fd)))).

(** The tokens of the two header lines, line by line. *)
Definition header_tokens (fd : list string) : list string :=
  (split (fst (pop (tl fd))) ++ split (fst (pop (snd (pop (tl fd))))))%list.

(** [atoms = Atoms(cell=cell, ...)] and [atoms.set_chemical_symbols(symbols)]:
    the object, as the arguments it is built from, unless the class
    raises. *)
Definition new_atoms (c : list num) (ps : coords num) (symbols : list string)
    : result (Atoms num) :=
  match atoms_check c ps symbols with
  | Some e => Err (AtomsError e)
  | None => OK (mkAtoms c ps symbols)
  end.

(** What follows the loop: the test for the boundary keywords, the cell,
    and the object built from it. *)
Definition assemble (keywords : list string) (box : list num)
    (positions : list vec) (symbols : list string) : result (Atoms num) :=
  if (mem "surface" keywords || mem "freeBC" keywords)%bool then
    Err UnsupportedFeature
  else
    c <- (if mem "angdeg" keywords then
            match cellpar_to_cell box with
            | Some c => OK c
            | None => Err MalformedInput
            end
          else OK (triangular_cell keywords box)) ;;
    if mem "reduced" keywords then new_atoms c (Scaled positions) symbols
    else new_atoms c (Cartesian positions) symbols.

Definition read_lines (fd : list string) : result (Atoms num) :=
  box <- parse_box (split (header_line fd)) ;;
  st <- scan ([], [], []) (body fd) ;;
  let '(keywords, positions, symbols) := st in
  assemble keywords box positions symbols.

Definition read_v_sim (input : string) : result (Atoms num) :=
  read_lines (readlines input).

(** *** The node lines of a body, for the statements below *)

(** The node lines in order, each with the unit the loop gives it: the
    keywords seen so far are threaded through the lines. *)
Fixpoint nodes_from (keywords : list string) (fd : list string)
    : result (list (vec * string)) :=
  match fd with
  | [] => OK []
  | line :: fd' =>
      if is_node line then
        a <- parse_node (node_unit keywords) line ;;
        r <- nodes_from keywords fd' ;;
        OK (a :: r)
      else nodes_from (keywords ++ line_keywords line)%list fd'
  end.

(** The node lines in order as they are written, no unit applied. *)
Fixpoint raw_nodes (fd : list string) : result (list (vec * string)) :=
  match fd with
  | [] => OK []
  | line :: fd' =>
      if is_node line then
        a <- node_fields line ;;
        r <- raw_nodes fd' ;;
        OK (a :: r)
      else raw_nodes fd'
  end.

Definition scale_node (unit : num) (a : vec * string) : vec * string :=
  (scale unit (fst a), snd a).

(** The unit of the cell and of the positions of a file. *)
Definition file_unit (keywords : list string) : num :=
  if bohr_family keywords then Bohr else one.

(** The lower-triangular cell of six numbers, times a unit. *)
Definition lower_triangular (unit : num) (xx yx yy zx zy zz : num) : list num :=
  [ mul xx unit; mul zero unit; mul zero unit;
    mul yx unit; mul yy unit; mul zero unit;
    mul zx unit; mul zy unit; mul zz unit ].




(** The keyword rule of the specification, said of the loop: a comment
    line adds the tokens of [spec_comment_keywords]. *)
Definition spec_keyword_rule : Prop :=
  forall line rest keywords ps syms,
    re_comment line = Some rest ->
    scan_line (keywords, ps, syms) line
    = OK ((keywords ++ spec_comment_keywords rest)%list, ps, syms).

(** *** [write_v_sim] *)


Definition get_scaled_positions (r : Structure num) : list vec :=
  map (fun a => scaled_position (s_cell r) (s_pbc r) (fst a)) (s_atoms r).

Definition get_chemical_symbols (r : Structure num) : list string :=
  map snd (s_atoms r).

Definition title_line : string :=
  "===== v_sim input file created using the Atomic Simulation Environment (ASE) ====" ++ nl.

(** ['{0} {1} {2}\n'.format(a, b, c)] *)
Definition format3 (a b c : num) : string :=
  fmt a ++ " " ++ fmt b ++ " " ++ fmt c ++ nl.

(** ['{0} {1} {2} {3}\n'.format(position[0], position[1], position[2], symbol)] *)
Definition format_atom (a : vec * string) : string :=
  let '((x, y, z), symbol) := a in
  fmt x ++ " " ++ fmt y ++ " " ++ fmt z ++ " " ++ symbol ++ nl.

Definition entry (c : list num) (i : nat) : num := nth i c zero.

Definition kw_reduced : string := "#keyword: reduced" ++ nl.
Definition kw_angstroem : string := "#keyword: angstroem" ++ nl.
Definition kw_periodic : string := "#keyword: periodic" ++ nl.
Definition kw_freeBC : string := "#keyword: freeBC" ++ nl.
Definition kw_surface : string := "#keyword: surface" ++ nl.

Definition preamble (c : list num) : list string :=
  [ title_line;
    format3 (entry c 0) (entry c 3) (entry c 4);
    format3 (entry c 6) (entry c 7) (entry c 8);
    kw_reduced;
    kw_angstroem ].

Definition atom_lines (r : Structure num) : list string :=
  map format_atom (combine (get_scaled_positions r) (get_chemical_symbols r)).

(** The strings handed to [fd.write], in order, and how the call ends. *)
Definition write_v_sim (r : Structure num) : list string * result unit :=
  match cellpar_to_cell (cell_to_cellpar (s_cell r)) with
  | None => ([], Err MalformedInput)
  | Some c =>
      let '(px, py, pz) := s_pbc r in
      if (px && py && pz)%bool then
        ((preamble c ++ [kw_periodic] ++ atom_lines r)%list, OK tt)
      else if negb (px || py || pz) then
        ((preamble c ++ [kw_freeBC] ++ atom_lines r)%list, OK tt)
      else if (Bool.eqb px true && Bool.eqb py false && Bool.eqb pz true)%bool then
        ((preamble c ++ [kw_surface] ++ atom_lines r)%list, OK tt)
      else (preamble c, Err UnsupportedBoundaryCondition)
  end.


(** The text a stream holds after the writes. *)
Fixpoint written (out : list string) : string :=
  match out with
  | [] => EmptyString
  | x :: out' => x ++ written out'
  end.

(** The numbers [write_v_sim] prints: six entries of the triangular cell
    and the fractional coordinates. *)
Definition written_numbers (r : Structure num) (c : list num) : list num :=
  ([entry c 0; entry c 3; entry c 4; entry c 6; entry c 7; entry c 8] ++
   flat_map (fun v => let '(x, y, z) := v in [x; y; z]) (get_scaled_positions r))%list.

(** A number that is printed as a plain token and read back as itself. *)
Definition well_printed (x : num) : Prop :=
  is_plain_token (fmt x) = true /\ float_of (fmt x) = Some x.

Definition well_printed3 (v : vec) : Prop :=
  let '(x, y, z) := v in well_printed x /\ well_printed y /\ well_printed z.


End VSim.

(** ** A concrete number model: exact decimals

    Rationals in lowest terms, read and printed in plain decimal notation.
    It interprets the parameters of the embedding on the inputs used in
    the examples below: [float_of] accepts an optional sign, digits and an
    optional fractional part (a fragment of what Python's [float] accepts);
    the cell-parameter conversions are exact on orthorhombic cells, which
    are the only ones the examples use. *)

Module Decimal.

Definition norm (q : Q) : Q := Qred q.

Definition zero : Q := 0.
Definition one : Q := 1.
(** [units.Bohr] of ASE 3.22.1 *)
Definition Bohr : Q := norm (5291772105638411 # 10000000000000000).
Definition mul (a b : Q) : Q := norm (a * b).
Definition add (a b : Q) : Q := norm (a + b).

Definition digit (c : ascii) : option Z :=
  if between 48 57 c then Some (Z.of_N (code c) - 48)%Z else None.

(** Digits read so far as a number and the count of digits. *)
Fixpoint digits (acc : Z) (n : nat) (s : string) : option (Z * nat * string) :=
  match s with
  | EmptyString => Some (acc, n, s)
  | String c r =>
      match digit c with
      | Some d => digits (acc * 10 + d)%Z (S n) r
      | None => Some (acc, n, s)
      end
  end.

Definition fraction (i : Z) (r : string) : option Q :=
  match digits 0 0 r with
  | Some (f, k, EmptyString) =>
      Some (norm (inject_Z i + (f # Pos.pow 10 (Pos.of_nat k))))
  | _ => None
  end.

Definition unsigned (s : string) : option Q :=
  match digits 0 0 s with
  | Some (i, S _, EmptyString) => Some (norm (inject_Z i))
  | Some (i, S _, String c r) =>
      if Ascii.eqb c "." then fraction i r else None
  | _ => None
  end.

Definition float_of (s : string) : option Q :=
  match s with
  | String c r =>
      if Ascii.eqb c "-" then option_map (fun q => norm (- q)) (unsigned r)
      else if Ascii.eqb c "+" then unsigned r
      else unsigned s
  | EmptyString => None
  end.

Definition digit_char (d : Z) : ascii := ascii_of_N (Z.to_N d + 48).

(** The decimal digits of a natural number, most significant first. *)
Fixpoint nat_digits (fuel : nat) (n : Z) (acc : string) : string :=
  match fuel with
  | O => acc
  | S k =>
      let acc' := String (digit_char (n mod 10)) acc in
      if (n / 10 =? 0)%Z then acc' else nat_digits k (n / 10) acc'
  end.

(** The digits after the point of [r / d], at least one, at most [fuel]. *)
Fixpoint frac_digits (fuel : nat) (r d : Z) : string :=
  match fuel with
  | O => EmptyString
  | S k =>
      let r10 := (r * 10)%Z in
      String (digit_char (r10 / d))
        (if (r10 mod d =? 0)%Z then EmptyString else frac_digits k (r10 mod d) d)
  end.

(** The digits of the integer part, a point, and the digits after it: all
    of them when the expansion ends (it is then no longer than the binary
    size of the denominator). *)
Definition fmt (q : Q) : string :=
  let n := Z.abs (Qnum q) in
  let d := Zpos (Qden q) in
  (if (Qnum q <? 0)%Z then "-" else "") ++
  nat_digits (S (Z.to_nat (Z.log2 n))) (n / d) "" ++ "." ++
  frac_digits (S (Z.to_nat (Z.log2 d))) (n mod d) d.

Definition is90 (q : Q) : bool := Qeq_bool q 90.

(** [cellpar_to_cell] where every angle is 90 degrees: one length, three
    lengths, or three lengths and three right angles. *)
Definition cellpar_to_cell (p : list Q) : option (list Q) :=
  match p with
  | [a] => Some [a; 0; 0; 0; a; 0; 0; 0; a]
  | [a; b; c] => Some [a; 0; 0; 0; b; 0; 0; 0; c]
  | [a; b; c; al; be; ga] =>
      if (is90 al && is90 be && is90 ga)%bool
      then Some [a; 0; 0; 0; b; 0; 0; 0; c] else None
  | _ => None
  end.

Definition qabs (q : Q) : Q := norm (Qabs q).

(** [cell_to_cellpar] of a diagonal cell. *)
Definition cell_to_cellpar (c : list Q) : list Q :=
  [qabs (nth 0 c 0); qabs (nth 4 c 0); qabs (nth 8 c 0); 90; 90; 90].

Definition frac (periodic : bool) (x len : Q) : Q :=
  let f := if Qeq_bool len 0 then x else x / len in
  norm (if periodic then f - inject_Z (Qfloor f) else f).

(** The fractional coordinates in a diagonal cell. *)
Definition scaled_position (c : list Q) (pbc : bool * bool * bool)
    (p : Q * Q * Q) : Q * Q * Q :=
  let '(px, py, pz) := pbc in
  let '(x, y, z) := p in
  (frac px x (nth 0 c 0), frac py y (nth 4 c 0), frac pz z (nth 8 c 0)).

(** [ase.data.chemical_symbols] of ASE 3.22.1, the keys of
    [atomic_numbers]. *)
Definition chemical_symbols : list string :=
  [ "X"; "H"; "He";
    "Li"; "Be"; "B"; "C"; "N"; "O"; "F"; "Ne";
    "Na"; "Mg"; "Al"; "Si"; "P"; "S"; "Cl"; "Ar";
    "K"; "Ca"; "Sc"; "Ti"; "V"; "Cr"; "Mn"; "Fe"; "Co"; "Ni"; "Cu"; "Zn";
    "Ga"; "Ge"; "As"; "Se"; "Br"; "Kr";
    "Rb"; "Sr"; "Y"; "Zr"; "Nb"; "Mo"; "Tc"; "Ru"; "Rh"; "Pd"; "Ag"; "Cd";
    "In"; "Sn"; "Sb"; "Te"; "I"; "Xe";
    "Cs"; "Ba"; "La"; "Ce"; "Pr"; "Nd"; "Pm"; "Sm"; "Eu"; "Gd"; "Tb"; "Dy";
    "Ho"; "Er"; "Tm"; "Yb"; "Lu";
    "Hf"; "Ta"; "W"; "Re"; "Os"; "Ir"; "Pt"; "Au"; "Hg"; "Tl"; "Pb"; "Bi";
    "Po"; "At"; "Rn";
    "Fr"; "Ra"; "Ac"; "Th"; "Pa"; "U"; "Np"; "Pu"; "Am"; "Cm"; "Bk"; "Cf";
    "Es"; "Fm"; "Md"; "No"; "Lr";
    "Rf"; "Db"; "Sg"; "Bh"; "Hs"; "Mt"; "Ds"; "Rg"; "Cn"; "Nh"; "Fl"; "Mc";
    "Lv"; "Ts"; "Og" ].

Definition nonzero (q : Q) : bool := negb (Qeq_bool q 0).

(** [cell.rank == 3]: each of the three lattice vectors has an entry that
    is not zero. *)
Definition rank3 (c : list Q) : bool :=
  let e i := nth i c 0 in
  ((nonzero (e 0%nat) || nonzero (e 1%nat) || nonzero (e 2%nat)) &&
   (nonzero (e 3%nat) || nonzero (e 4%nat) || nonzero (e 5%nat)) &&
   (nonzero (e 6%nat) || nonzero (e 7%nat) || nonzero (e 8%nat)))%bool.

Definition symbols_check (symbols : list string) : option atoms_error :=
  if forallb (fun s => mem s chemical_symbols) symbols then None
  else Some KeyError.

(** The [Atoms] class of ASE 3.22.1 on what the reader hands to it: with
    scaled positions the constructor asserts that the cell has rank 3 and
    multiplies the positions by the cell, which fails for an empty list;
    [set_chemical_symbols] then looks every symbol up in
    [atomic_numbers]. *)
Definition atoms_check (c : list Q) (ps : coords Q) (symbols : list string)
    : option atoms_error :=
  match ps with
  | Cartesian _ => symbols_check symbols
  | Scaled l =>
      if negb (rank3 c) then Some AssertionError
      else match l with
           | [] => Some ValueError
           | _ :: _ => symbols_check symbols
           end
  end.

End Decimal.

#[export] Instance decimal : Numbers := {|
  num := Q;
  float_of := Decimal.float_of;
  fmt := Decimal.fmt;
  zero := Decimal.zero;
  one := Decimal.one;
  Bohr := Decimal.Bohr;
  mul := Decimal.mul;
  add := Decimal.add;
  cellpar_to_cell := Decimal.cellpar_to_cell;
  cell_to_cellpar := Decimal.cell_to_cellpar;
  scaled_position := Decimal.scaled_position;
  atoms_check := Decimal.atoms_check
|}.

(** ** Example files *)

Module Examples.

Definition lines (l : list string) : string :=
  String.concat "" (map (fun x => x ++ nl) l).

(** A Bohr keyword ahead of the node line. *)
Definition bohr_first : string :=
  lines ["title"; "1 0 1"; "0 0 1"; "#keyword: bohr"; "1 0 0 H"].


(** Lengths and angles in the header, with a Bohr keyword. *)
Definition bohr_angdeg : string :=
  lines ["title"; "1 1 1"; "90 90 90"; "#keyword: bohr, angdeg"; "1 0 0 H"].

(** One number on the first header line, five on the second. *)
Definition split_1_5 : string :=
  lines ["title"; "1"; "0 1 0 0 1"; "#keyword: bohr"; "1 0 0 H"].

(** A seventh header token that is no number. *)
Definition seventh_token : string :=
  lines ["title"; "1 0 1"; "0 0 1 x"; "1 0 0 H"].

(** A node line whose second field is no number. *)
Definition bad_node : string :=
  lines ["title"; "1 0 1"; "0 0 1"; "#keyword: surface"; "0 y 0 H"].

(** What the reader returns for [bohr_first]. *)
Definition bohr_first_atoms : Atoms Q :=
  mkAtoms [Decimal.Bohr; 0; 0; 0; Decimal.Bohr; 0; 0; 0; Decimal.Bohr]%Q
          (Cartesian [(Decimal.Bohr, 0, 0)%Q]) ["H"].


(** ... for [bohr_angdeg]: the cell as written, the position in Bohr radii. *)
Definition bohr_angdeg_atoms : Atoms Q :=
  mkAtoms [1; 0; 0; 0; 1; 0; 0; 0; 1]%Q
          (Cartesian [(Decimal.Bohr, 0, 0)%Q]) ["H"].

(** A keyword line in capitals, with a comma. *)
Definition shouted_keywords : string := "#keyword: Reduced,BOHR" ++ nl.

(** A keyword line with blanks between the marker and [keyword:]. *)
Definition blank_keyword : string := "#  keyword: reduced" ++ nl.


(** The boundary keyword the writer emits for a free object. *)
Definition free_boundary : string :=
  lines ["title"; "1 0 1"; "0 0 1"; "#keyword: freeBC"; "1 0 0 H"].

(** The same keyword after the node line. *)
Definition free_boundary_last : string :=
  lines ["title"; "1 0 1"; "0 0 1"; "1 0 0 H"; "#keyword: freeBC"].

(** The surface keyword after the node line. *)
Definition surface_last : string :=
  lines ["title"; "1 0 1"; "0 0 1"; "1 0 0 H"; "#keyword: surface"].

(** What the reader returns for both files with [freeBC]. *)
Definition free_boundary_atoms : Atoms Q :=
  mkAtoms [1; 0; 0; 0; 1; 0; 0; 0; 1]%Q (Cartesian [(1, 0, 0)%Q]) ["H"].

(** A cubic cell with two atoms, periodic along the three axes. *)
Definition cube_periodic : Structure Q :=
  mkStructure [2; 0; 0; 0; 2; 0; 0; 0; 2]%Q (true, true, true)
              [((1, 1 # 2, 5 # 2)%Q, "H"); ((0, 0, 0)%Q, "He")].


(** The same cell and atoms, free along y. *)
Definition cube_surface : Structure Q :=
  mkStructure [2; 0; 0; 0; 2; 0; 0; 0; 2]%Q (true, false, true)
              [((1, 1 # 2, 5 # 2)%Q, "H"); ((0, 0, 0)%Q, "He")].

(** A header and nothing after it. *)
Definition header_only : string := lines ["title"; "1 0 1"; "0 0 1"].

(** [bohr_first] with a blank line, a short line that holds no number, a
    comment without keywords and one whose [keyword:] is set off by a
    blank. *)
Definition bohr_first_padded : string :=
  lines ["another title"; "1 0 1"; "0 0 1"; ""; "a b c"; "! plain remark";
         "#keyword: bohr"; "# keyword: reduced"; "1 0 0 H"].

(** [bohr_first] with its body lines indented. *)
Definition bohr_first_indented : string :=
  lines ["title"; "1 0 1"; "0 0 1"; "   #keyword: bohr"; "  1 0 0 H"].

(** [bohr_first] with two more header numbers. *)
Definition eight_numbers : string :=
  lines ["title"; "1 0 1 0"; "0 1 7 8"; "#keyword: bohr"; "1 0 0 H"].

(** Fractional coordinates in a cell given in Bohr radii. *)
Definition reduced_bohr : string :=
  lines ["title"; "1 0 1"; "0 0 1"; "#keyword: reduced, bohr"; "0.5 0.5 0.5 H"].

Definition reduced_bohr_atoms : Atoms Q :=
  mkAtoms [Decimal.Bohr; 0; 0; 0; Decimal.Bohr; 0; 0; 0; Decimal.Bohr]%Q
          (Scaled [(1 # 2, 1 # 2, 1 # 2)%Q]) ["H"].

(** Lengths and angles, without and with a Bohr keyword. *)
Definition angdeg_plain : string :=
  lines ["title"; "1 1 1"; "90 90 90"; "#keyword: angdeg"; "1 0 0 H"].

Definition angdeg_plain_atoms : Atoms Q :=
  mkAtoms [1; 0; 0; 0; 1; 0; 0; 0; 1]%Q (Cartesian [(1, 0, 0)%Q]) ["H"].

(** [bohr_first] with the keywords the writer adds to every file. *)
Definition bohr_first_periodic : string :=
  lines ["title"; "1 0 1"; "0 0 1"; "#keyword: bohr";
         "#keyword: angstroem, periodic"; "1 0 0 H"].

End Examples.

(** ** Facts about the string primitives *)

Module PyFacts.

Lemma smap_smap (f g : ascii -> ascii) (s : string) :
  smap f (smap g s) = smap (fun c => f (g c)) s.
Proof. induction s as [|c r IH]; simpl; [reflexivity | now rewrite IH]. Qed.

Lemma smap_ext (f g : ascii -> ascii) (s : string) :
  (forall c, f c = g c) -> smap f s = smap g s.
Proof. intros E. induction s as [|c r IH]; simpl; [reflexivity | now rewrite E, IH]. Qed.

Lemma slice_to_smap (f : ascii -> ascii) (n : nat) (s : string) :
  slice_to n (smap f s) = smap f (slice_to n s).
Proof.
  revert s. induction n as [|n IH]; intros [|c r]; simpl; try reflexivity.
  now rewrite IH.
Qed.

Lemma slice_from_smap (f : ascii -> ascii) (n : nat) (s : string) :
  slice_from n (smap f s) = smap f (slice_from n s).
Proof.
  revert s. induction n as [|n IH]; intros [|c r]; simpl; try reflexivity.
  apply IH.
Qed.

Lemma slice_to_app (t s : string) :
  slice_to (String.length t) (t ++ s) = t.
Proof. induction t as [|c r IH]; simpl; [now destruct s | now rewrite IH]. Qed.

Lemma slice_from_app (t s : string) :
  slice_from (String.length t) (t ++ s) = s.
Proof. induction t as [|c r IH]; simpl; [now destruct s | exact IH]. Qed.

(** *** Reading lines *)

Lemma readlines_readline (s : string) :
  readlines s =
  match s with
  | EmptyString => []
  | String _ _ => fst (readline s) :: readlines (snd (readline s))
  end.
Proof.
  induction s as [|c r IH]; [reflexivity|].
  simpl. destruct (is_newline c); [reflexivity|].
  rewrite IH. destruct r as [|d r']; [reflexivity|].
  destruct (readline (String d r')) as [l r'']. reflexivity.
Qed.

(** No line is empty: the loop of the reader sees every line before it
    meets [""] at the end of the stream. *)
Lemma readlines_nonempty (s : string) :
  Forall (fun l => l <> EmptyString) (readlines s).
Proof.
  induction s as [|c r IH]; [constructor|].
  cbn [readlines]. destruct (is_newline c).
  - constructor; [discriminate | exact IH].
  - destruct (readlines r) as [|l ls]; constructor; try discriminate.
    + constructor.
    + now inversion IH.
Qed.

Lemma readlines_line (l rest : string) :
  all_chars (fun c => negb (is_newline c)) l = true ->
  readlines (l ++ nl ++ rest) = (l ++ nl) :: readlines rest.
Proof.
  induction l as [|c r IH]; intros H.
  - reflexivity.
  - simpl in H. apply andb_prop in H. destruct H as [Hc Hr].
    apply negb_true_iff in Hc.
    change (readlines (String c (r ++ nl ++ rest))
            = String c (r ++ nl) :: readlines rest).
    cbn [readlines]. rewrite Hc, (IH Hr). reflexivity.
Qed.

Lemma all_chars_app (p : ascii -> bool) (a b : string) :
  all_chars p (a ++ b) = (all_chars p a && all_chars p b)%bool.
Proof.
  induction a as [|c r IH]; simpl; [reflexivity|].
  now rewrite IH, andb_assoc.
Qed.

Lemma all_chars_weaken (p q : ascii -> bool) (s : string) :
  (forall c, p c = true -> q c = true) ->
  all_chars p s = true -> all_chars q s = true.
Proof.
  intros W. induction s as [|c r IH]; simpl; [reflexivity|].
  intros H. apply andb_prop in H. destruct H as [H1 H2].
  now rewrite (W _ H1), (IH H2).
Qed.

Lemma newline_isspace (c : ascii) : is_newline c = true -> isspace c = true.
Proof.
  unfold is_newline, isspace, between. intros H.
  apply N.eqb_eq in H. now rewrite H.
Qed.

Lemma token_no_newline (t : string) :
  is_token t = true -> all_chars (fun c => negb (is_newline c)) t = true.
Proof.
  destruct t as [|c r]; [discriminate|]. unfold is_token.
  apply all_chars_weaken. intros d Hd.
  apply negb_true_iff in Hd. apply negb_true_iff.
  destruct (is_newline d) eqn:E; [|reflexivity].
  apply newline_isspace in E. congruence.
Qed.

(** *** Splitting *)

Section Split.
Variable sep : ascii -> bool.

Lemma split_by_cons (c : ascii) (r : string) :
  split_by sep (String c r) =
  if sep c then split_by sep r
  else match r with
       | EmptyString => [String c EmptyString]
       | String d _ =>
           if sep d then String c EmptyString :: split_by sep r
           else match split_by sep r with
                | t :: ts => String c t :: ts
                | [] => [String c EmptyString]
                end
       end.
Proof. reflexivity. Qed.

Lemma split_by_head (d : ascii) (r : string) :
  sep d = false -> split_by sep (String d r) <> [].
Proof.
  intros H. rewrite split_by_cons, H.
  destruct r as [|e r']; [discriminate|].
  destruct (sep e); [discriminate|].
  destruct (split_by sep (String e r')); discriminate.
Qed.

Lemma split_by_app_sep (a b : string) (w : ascii) :
  sep w = true ->
  split_by sep (a ++ String w b) = (split_by sep a ++ split_by sep b)%list.
Proof.
  intros Hw. induction a as [|c a' IH].
  - cbn [append]. rewrite split_by_cons, Hw. reflexivity.
  - change (String c a' ++ String w b) with (String c (a' ++ String w b)).
    rewrite (split_by_cons c a'), (split_by_cons c (a' ++ String w b)).
    destruct (sep c); [exact IH|].
    destruct a' as [|d a''].
    + cbn [append]. rewrite Hw. rewrite split_by_cons, Hw. reflexivity.
    + change (String d a'' ++ String w b) with (String d (a'' ++ String w b)) in *.
      lazy beta iota.
      destruct (sep d) eqn:Hd.
      * rewrite IH. reflexivity.
      * rewrite IH. pose proof (split_by_head d a'' Hd) as Hne.
        destruct (split_by sep (String d a'')) as [|t ts]; [congruence|].
        reflexivity.
Qed.

Definition token_for (t : string) : bool :=
  match t with
  | EmptyString => false
  | String _ _ => all_chars (fun c => negb (sep c)) t
  end.

Lemma split_by_token (t : string) :
  token_for t = true -> split_by sep t = [t].
Proof.
  destruct t as [|c r]; [discriminate|]. unfold token_for.
  revert c. induction r as [|d r' IH]; intros c H.
  - simpl in H. rewrite andb_true_r in H. apply negb_true_iff in H.
    rewrite split_by_cons, H. reflexivity.
  - change (all_chars (fun c => negb (sep c)) (String c (String d r')))
      with (negb (sep c) && all_chars (fun c => negb (sep c)) (String d r'))%bool in H.
    apply andb_prop in H. destruct H as [Hc Hr].
    pose proof (IH d Hr) as IHd.
    apply negb_true_iff in Hc.
    assert (Hd : sep d = false).
    { simpl in Hr. apply andb_prop in Hr. destruct Hr as [Hd _].
      now apply negb_true_iff in Hd. }
    rewrite split_by_cons, Hc, Hd, IHd. reflexivity.
Qed.

Lemma split_by_token_sep (t b : string) (w : ascii) :
  token_for t = true -> sep w = true ->
  split_by sep (t ++ String w b) = t :: split_by sep b.
Proof.
  intros Ht Hw. rewrite (split_by_app_sep t b w Hw), (split_by_token t Ht).
  reflexivity.
Qed.

(** Every piece is a token. *)
Lemma split_by_tokens (s : string) :
  Forall (fun t => token_for t = true) (split_by sep s).
Proof.
  induction s as [|c r IH]; [constructor|].
  rewrite split_by_cons. destruct (sep c) eqn:Hc; [exact IH|].
  assert (H1 : token_for (String c EmptyString) = true).
  { simpl. now rewrite Hc. }
  destruct r as [|d r']; [repeat constructor; exact H1|].
  destruct (sep d) eqn:Hd; [constructor; [exact H1 | exact IH]|].
  destruct (split_by sep (String d r')) as [|t ts]; [repeat constructor; exact H1|].
  inversion IH as [|? ? Ht Hts]; subst. constructor; [|exact Hts].
  destruct t as [|e t']; [discriminate|].
  unfold token_for in *. simpl. simpl in Ht. now rewrite Hc, Ht.
Qed.

End Split.

Lemma split_by_smap (sep sep' : ascii -> bool) (f : ascii -> ascii) (s : string) :
  (forall c, sep (f c) = sep' c) ->
  split_by sep (smap f s) = map (smap f) (split_by sep' s).
Proof.
  intros E. induction s as [|c r IH]; [reflexivity|].
  change (smap f (String c r)) with (String (f c) (smap f r)).
  rewrite !split_by_cons, E. destruct (sep' c); [exact IH|].
  destruct r as [|d r']; [reflexivity|].
  change (smap f (String d r')) with (String (f d) (smap f r')) in *.
  lazy beta iota. rewrite E. destruct (sep' d).
  - rewrite IH. reflexivity.
  - rewrite IH. destruct (split_by sep' (String d r')); reflexivity.
Qed.

Lemma is_token_token_for (t : string) : is_token t = token_for isspace t.
Proof. reflexivity. Qed.

Lemma split_app_space (a b : string) (w : ascii) :
  isspace w = true -> split (a ++ String w b) = (split a ++ split b)%list.
Proof. apply split_by_app_sep. Qed.

Lemma split_token_space (t b : string) (w : ascii) :
  is_token t = true -> isspace w = true ->
  split (t ++ String w b) = t :: split b.
Proof. intros Ht Hw. apply split_by_token_sep; assumption. Qed.

(** *** The regular expressions *)

Lemma skip_space_head (s : string) :
  match skip_space s with
  | String c _ => isspace c = false
  | EmptyString => True
  end.
Proof.
  induction s as [|c r IH]; simpl; [exact I|].
  destruct (isspace c) eqn:E; [exact IH | exact E].
Qed.

Lemma skip_nonspace_head (s : string) :
  match skip_nonspace s with
  | String c _ => isspace c = true
  | EmptyString => True
  end.
Proof.
  induction s as [|c r IH]; simpl; [exact I|].
  destruct (isspace c) eqn:E; [exact E | exact IH].
Qed.

Lemma split_skip_space (s : string) : split (skip_space s) = split s.
Proof.
  induction s as [|c r IH]; [reflexivity|].
  unfold split in *. rewrite split_by_cons. simpl skip_space.
  destruct (isspace c) eqn:E; [exact IH|].
  rewrite split_by_cons, E. reflexivity.
Qed.

Lemma split_length_head (c : ascii) (r : string) :
  isspace c = false ->
  List.length (split (String c r)) = S (List.length (split (skip_nonspace r))).
Proof.
  revert c. induction r as [|d r' IH]; intros c Hc; unfold split in *.
  - rewrite split_by_cons, Hc. reflexivity.
  - rewrite split_by_cons, Hc. simpl skip_nonspace.
    destruct (isspace d) eqn:Hd; [reflexivity|].
    pose proof (IH d Hd) as IHd.
    destruct (split_by isspace (String d r')) as [|t ts]; [discriminate|].
    exact IHd.
Qed.

Lemma tokens_ge_length (n : nat) (s : string) :
  tokens_ge n s = (n <=? List.length (split s))%nat.
Proof.
  revert s. induction n as [|n IH]; intros s; [reflexivity|].
  cbn [tokens_ge]. rewrite <- (split_skip_space s).
  pose proof (skip_space_head s) as Hh.
  destruct (skip_space s) as [|c r]; [reflexivity|].
  rewrite (split_length_head c r Hh), IH. reflexivity.
Qed.

Lemma next_token (r : string) :
  andThen (space_plus (skip_nonspace r)) nonspace_plus =
  match skip_space (skip_nonspace r) with
  | EmptyString => None
  | String _ r' => Some (skip_nonspace r')
  end.
Proof.
  pose proof (skip_nonspace_head r) as Hh.
  destruct (skip_nonspace r) as [|d r2]; [reflexivity|].
  cbn [space_plus skip_space andThen]. rewrite Hh.
  cbn [andThen]. pose proof (skip_space_head r2) as Hs.
  destruct (skip_space r2) as [|e r3]; [reflexivity|].
  cbn [nonspace_plus]. now rewrite Hs.
Qed.

(** The node pattern matches exactly the lines of at least four tokens. *)
Lemma re_node_tokens (line : string) :
  re_node line = (4 <=? List.length (split line))%nat.
Proof.
  rewrite <- tokens_ge_length. unfold re_node. cbn [tokens_ge].
  pose proof (skip_space_head line) as Hh.
  destruct (skip_space line) as [|c r]; [reflexivity|].
  cbn [nonspace_plus]. rewrite Hh. cbn [andThen].
  rewrite next_token.
  destruct (skip_space (skip_nonspace r)) as [|c1 r1]; [reflexivity|].
  cbn [andThen]. rewrite next_token.
  destruct (skip_space (skip_nonspace r1)) as [|c2 r2]; [reflexivity|].
  cbn [andThen]. rewrite next_token.
  destruct (skip_space (skip_nonspace r2)) as [|c3 r3]; reflexivity.
Qed.

(** A line that begins with a plain token is not a comment line. *)
Lemma re_comment_plain (t rest : string) :
  is_plain_token t = true -> re_comment (t ++ rest) = None.
Proof.
  destruct t as [|c r]; [discriminate|]. unfold is_plain_token, is_token.
  intros H. apply andb_prop in H. destruct H as [Hm Ht].
  simpl in Ht. apply andb_prop in Ht. destruct Ht as [Hs _].
  apply negb_true_iff in Hm, Hs. simpl. now rewrite Hm, Hs.
Qed.

Lemma is_plain_token_token (t : string) :
  is_plain_token t = true -> is_token t = true.
Proof.
  destruct t as [|c r]; [discriminate|]. unfold is_plain_token.
  intros H. apply andb_prop in H. tauto.
Qed.

End PyFacts.

(** ** Facts about the reader *)

Section ReaderFacts.

Context {N : Numbers}.
Import PyFacts.

Lemma is_node_inv (line : string) :
  is_node line = true -> re_comment line = None /\ re_node line = true.
Proof.
  unfold is_node. destruct (re_comment line); [discriminate | auto].
Qed.

Lemma is_node_line_keywords (line : string) :
  is_node line = true -> line_keywords line = [].
Proof.
  intros H. apply is_node_inv in H. destruct H as [H _].
  unfold line_keywords. now rewrite H.
Qed.

Lemma is_node_fields (line : string) :
  is_node line = true ->
  exists f0 f1 f2 f3 rest, split line = f0 :: f1 :: f2 :: f3 :: rest.
Proof.
  intros H. apply is_node_inv in H. destruct H as [_ H].
  rewrite re_node_tokens in H. apply Nat.leb_le in H.
  destruct (split line) as [|f0 [|f1 [|f2 [|f3 rest]]]]; simpl in H; try lia.
  now exists f0, f1, f2, f3, rest.
Qed.

(** *** The header *)

Lemma header_line_tokens (fd : list string) :
  split (header_line fd) = header_tokens fd.
Proof.
  unfold header_line, header_tokens.
  apply (split_app_space _ _ " "%char). reflexivity.
Qed.

Lemma parse_box_err (toks : list string) (t : string) :
  In t toks -> float_of t = None -> parse_box toks = Err MalformedInput.
Proof.
  induction toks as [|a toks IH]; intros Hin Ht; [contradiction|].
  simpl. destruct (float_of a) eqn:Ea; [|reflexivity].
  destruct Hin as [->|Hin]; [congruence|].
  now rewrite (IH Hin Ht).
Qed.

Lemma parse_box_err_kind (toks : list string) (e : error) :
  parse_box toks = Err e -> e = MalformedInput.
Proof.
  revert e. induction toks as [|a toks IH]; intros e; simpl; [discriminate|].
  destruct (float_of a); [|congruence].
  destruct (parse_box toks) as [bs|e']; simpl; [discriminate|].
  intros H. injection H as <-. now apply IH.
Qed.

(** *** Node lines *)

Lemma node_fields_err_kind (line : string) (e : error) :
  is_node line = true -> node_fields line = Err e -> e = MalformedInput.
Proof.
  intros Hn. destruct (is_node_fields line Hn) as (f0 & f1 & f2 & f3 & rest & E).
  unfold node_fields. rewrite E.
  destruct (float_of f0); [|congruence].
  destruct (float_of f1); [|congruence].
  destruct (float_of f2); [discriminate | congruence].
Qed.

Lemma node_fields_bad (line : string) (i : nat) :
  is_node line = true -> (i < 3)%nat ->
  float_of (nth i (split line) EmptyString) = None ->
  node_fields line = Err MalformedInput.
Proof.
  intros Hn Hi. destruct (is_node_fields line Hn) as (f0 & f1 & f2 & f3 & rest & E).
  unfold node_fields. rewrite E.
  destruct i as [|[|[|i]]]; simpl; intros Hf; try lia.
  - now rewrite Hf.
  - destruct (float_of f0); [|reflexivity]. now rewrite Hf.
  - destruct (float_of f0); [|reflexivity].
    destruct (float_of f1); [|reflexivity]. now rewrite Hf.
Qed.

Lemma parse_node_fields (u : num) (line : string) :
  parse_node u line = (a <- node_fields line ;; OK (scale_node u a)).
Proof. reflexivity. Qed.

(** *** The loop over the body *)

(** The loop collects the keywords of the whole body and the node lines
    in order, each with the unit of the keywords that come before it. *)
Lemma scan_nodes (fd : list string) :
  forall keywords ps syms,
    scan (keywords, ps, syms) fd =
    (r <- nodes_from keywords fd ;;
     OK ((keywords ++ keywords_of fd)%list,
         (ps ++ map fst r)%list, (syms ++ map snd r)%list)).
Proof.
  induction fd as [|line fd IH]; intros keywords ps syms.
  - simpl. now rewrite !app_nil_r.
  - cbn [scan nodes_from keywords_of flat_map].
    unfold scan_line, is_node, line_keywords.
    destruct (re_comment line) as [rest|].
    + cbn [bind]. rewrite IH.
      destruct (nodes_from (keywords ++ comment_keywords rest) fd) as [r|e];
        cbn [bind]; [|reflexivity].
      now rewrite app_assoc.
    + destruct (re_node line).
      * destruct (parse_node (node_unit keywords) line) as [a|e];
          cbn [bind]; [|reflexivity].
        rewrite IH.
        destruct (nodes_from keywords fd) as [r|e]; cbn [bind]; [|reflexivity].
        cbn [map app]. now rewrite <- !app_assoc.
      * cbn [bind]. rewrite IH, app_nil_r. reflexivity.
Qed.

Lemma nodes_from_err_kind (fd : list string) :
  forall keywords e, nodes_from keywords fd = Err e -> e = MalformedInput.
Proof.
  induction fd as [|line fd IH]; intros keywords e; cbn [nodes_from];
    [discriminate|].
  destruct (is_node line) eqn:Hn; [|apply IH].
  rewrite parse_node_fields.
  destruct (node_fields line) as [a|e'] eqn:Ea; cbn [bind].
  - destruct (nodes_from keywords fd) as [r|e'] eqn:Er; cbn [bind];
      [discriminate|].
    intros H. injection H as <-. now apply (IH keywords).
  - intros H. injection H as <-. now apply (node_fields_err_kind line).
Qed.

Lemma nodes_from_bad_line (fd : list string) (line : string) :
  forall keywords,
    In line fd -> node_fields line = Err MalformedInput -> is_node line = true ->
    nodes_from keywords fd = Err MalformedInput.
Proof.
  induction fd as [|l fd IH]; intros keywords Hin Hbad Hn; [contradiction|].
  cbn [nodes_from]. destruct Hin as [->|Hin].
  - rewrite Hn, parse_node_fields, Hbad. reflexivity.
  - destruct (is_node l) eqn:Hl; [|now apply IH].
    rewrite parse_node_fields.
    destruct (node_fields l) as [a|e] eqn:El; cbn [bind].
    + now rewrite (IH keywords Hin Hbad Hn).
    + now rewrite (node_fields_err_kind l e Hl El).
Qed.

Lemma read_lines_nodes (fd : list string) :
  read_lines fd =
  (box <- parse_box (header_tokens fd) ;;
   r <- nodes_from [] (body fd) ;;
   assemble (keywords_of (body fd)) box (map fst r) (map snd r)).
Proof.
  unfold read_lines. rewrite header_line_tokens.
  destruct (parse_box (header_tokens fd)) as [box|e]; cbn [bind]; [|reflexivity].
  rewrite scan_nodes.
  destruct (nodes_from [] (body fd)) as [r|e]; reflexivity.
Qed.

Lemma keywords_of_app (a b : list string) :
  keywords_of (a ++ b) = (keywords_of a ++ keywords_of b)%list.
Proof. apply flat_map_app. Qed.

Lemma mem_app (x : string) (a b : list string) :
  mem x (a ++ b) = (mem x a || mem x b)%bool.
Proof. apply existsb_app. Qed.

(** When every node line finds the same unit, the nodes are the written
    ones, scaled by it. *)
Lemma nodes_from_unit (u : num) (fd : list string) :
  forall keywords,
    (forall pre line post,
        fd = (pre ++ line :: post)%list -> is_node line = true ->
        node_unit (keywords ++ keywords_of pre) = u) ->
    nodes_from keywords fd = (r <- raw_nodes fd ;; OK (map (scale_node u) r)).
Proof.
  induction fd as [|l fd IH]; intros keywords H; [reflexivity|].
  cbn [nodes_from raw_nodes]. destruct (is_node l) eqn:Hl.
  - assert (Hu : node_unit keywords = u).
    { rewrite <- (H [] l fd eq_refl Hl). cbn [keywords_of flat_map].
      now rewrite app_nil_r. }
    rewrite Hu, parse_node_fields.
    destruct (node_fields l) as [a|e]; cbn [bind]; [|reflexivity].
    rewrite (IH keywords).
    + destruct (raw_nodes fd); reflexivity.
    + intros pre line post E Hn. rewrite <- (H (l :: pre) line post); [|now rewrite E|exact Hn].
      cbn [keywords_of flat_map]. rewrite (is_node_line_keywords l Hl). reflexivity.
  - apply IH. intros pre line post E Hn.
    rewrite <- (H (l :: pre) line post); [|now rewrite E|exact Hn].
    cbn [keywords_of flat_map]. now rewrite app_assoc.
Qed.

(** A node line of [pre ++ post] lies in [post] when [pre] has none. *)
Lemma node_after_prefix (pre post p q : list string) (line : string) :
  forallb (fun l => negb (is_node l)) pre = true ->
  (pre ++ post = p ++ line :: q)%list -> is_node line = true ->
  exists p', p = (pre ++ p')%list /\ post = (p' ++ line :: q)%list.
Proof.
  revert p. induction pre as [|a pre IH]; intros p Hpre E Hn.
  - exists p. auto.
  - cbn [forallb] in Hpre. apply andb_prop in Hpre. destruct Hpre as [Ha Hpre].
    destruct p as [|b p].
    + cbn [app] in E. injection E as -> _. rewrite Hn in Ha. discriminate.
    + cbn [app] in E. injection E as -> E.
      destruct (IH p Hpre E Hn) as (p' & -> & ->). now exists p'.
Qed.


Lemma triangular_cell_six (keywords : list string) (b0 b1 b2 b3 b4 b5 : num)
    (rest : list num) :
  triangular_cell keywords (b0 :: b1 :: b2 :: b3 :: b4 :: b5 :: rest) =
  lower_triangular (file_unit keywords) b0 b1 b2 b3 b4 b5.
Proof. reflexivity. Qed.

Lemma assemble_ok (keywords : list string) (box : list num) (ps : list vec)
    (syms : list string) (r : Atoms num) :
  assemble keywords box ps syms = OK r ->
  mem "surface" keywords = false /\
  (if mem "angdeg" keywords then cellpar_to_cell box = Some (cell r)
   else cell r = triangular_cell keywords box) /\
  positions r = (if mem "reduced" keywords then Scaled ps else Cartesian ps) /\
  symbols r = syms.
Proof.
  unfold assemble, new_atoms. destruct (mem "surface" keywords); [discriminate|].
  cbn [orb]. destruct (mem "freeBC" keywords); [discriminate|].
  destruct (mem "angdeg" keywords).
  - destruct (cellpar_to_cell box) as [c|]; cbn [bind]; [|discriminate].
    destruct (mem "reduced" keywords); destruct (atoms_check _ _ _);
      try discriminate; intros H; injection H as <-; auto.
  - cbn [bind].
    destruct (mem "reduced" keywords); destruct (atoms_check _ _ _);
      try discriminate; intros H; injection H as <-; auto.
Qed.

(** What a successful read tells about the file. *)
Lemma read_lines_ok (fd : list string) (r : Atoms num) :
  read_lines fd = OK r ->
  exists box nodes,
    parse_box (header_tokens fd) = OK box /\
    nodes_from [] (body fd) = OK nodes /\
    assemble (keywords_of (body fd)) box (map fst nodes) (map snd nodes) = OK r.
Proof.
  rewrite read_lines_nodes.
  destruct (parse_box (header_tokens fd)) as [box|]; cbn [bind]; [|discriminate].
  destruct (nodes_from [] (body fd)) as [nodes|]; cbn [bind]; [|discriminate].
  intros H. now exists box, nodes.
Qed.

End ReaderFacts.

(** ** The reader: header, units and malformed input *)

Section ReaderClaims.

Context {N : Numbers}.
Import PyFacts.


(** C8. A header token that [float] refuses, or a node line (a line of the
    body with at least four tokens that is no comment line) one of whose
    first three tokens [float] refuses, makes the read fail with
    [MalformedInput]; an error carries no record. *)
Theorem malformed_numbers (input : string) :
  (exists t, In t (header_tokens (readlines input)) /\ float_of t = None) \/
  (exists line i,
      In line (body (readlines input)) /\
      is_comment line = false /\ (4 <= List.length (split line))%nat /\
      (i < 3)%nat /\ float_of (nth i (split line) EmptyString) = None) ->
  read_v_sim input = Err MalformedInput.
Proof.
  unfold read_v_sim. rewrite read_lines_nodes. intros [(t & Hin & Ht)|H].
  - now rewrite (parse_box_err _ t Hin Ht).
  - destruct H as (line & i & Hin & Hc & Hlen & Hi & Hf).
    assert (Hn : is_node line = true).
    { unfold is_comment in Hc. unfold is_node.
      destruct (re_comment line); [discriminate|].
      rewrite re_node_tokens. now apply Nat.leb_le. }
    destruct (parse_box (header_tokens (readlines input))) as [box|e] eqn:Eb;
      cbn [bind].
    + now rewrite (nodes_from_bad_line _ line [] Hin (node_fields_bad line i Hn Hi Hf) Hn).
    + now rewrite (parse_box_err_kind _ e Eb).
Qed.

(** C9. The two header lines are tokenized as one text: two files with the
    same body whose header lines carry the same tokens in the same order,
    however they are divided between the two lines, are read alike; and
    every header token goes through [float], so one that is refused makes
    the read fail wherever it stands, also beyond the sixth. *)
Theorem header_split_irrelevant (input input' : string) :
  body (readlines input) = body (readlines input') ->
  header_tokens (readlines input) = header_tokens (readlines input') ->
  split (header_line (readlines input)) = header_tokens (readlines input) /\
  read_v_sim input = read_v_sim input' /\
  (forall t, In t (header_tokens (readlines input)) -> float_of t = None ->
             read_v_sim input = Err MalformedInput).
Proof.
  intros Hb Hh. split; [apply header_line_tokens|]. split.
  - unfold read_v_sim. now rewrite !read_lines_nodes, Hb, Hh.
  - intros t Hin Ht. unfold read_v_sim.
    now rewrite read_lines_nodes, (parse_box_err _ t Hin Ht).
Qed.



End ReaderClaims.

(** ** The reader on the example files *)


Lemma malformed_numbers_witness :
  read_v_sim Examples.bad_node = Err MalformedInput.
Proof.
  apply malformed_numbers. right.
  exists ("0 y 0 H" ++ nl), 1%nat.
  repeat split; vm_compute; auto.
Defined.

Lemma header_split_irrelevant_witness :
  read_v_sim Examples.split_1_5 = read_v_sim Examples.bohr_first /\
  read_v_sim Examples.seventh_token = Err MalformedInput.
Proof.
  split.
  - refine (proj1 (proj2 (header_split_irrelevant
                            Examples.split_1_5 Examples.bohr_first _ _)));
      vm_compute; reflexivity.
  - refine (proj2 (proj2 (header_split_irrelevant
                            Examples.seventh_token Examples.seventh_token _ _))
              "x" _ _); vm_compute; auto 10.
Defined.


(** The line [1 0 0 H] under a [bohr] keyword: the Bohr radius along x. *)
Example bohr_first_position :
  read_v_sim Examples.bohr_first = OK Examples.bohr_first_atoms /\
  positions Examples.bohr_first_atoms = Cartesian [(Bohr, zero, zero)].
Proof. split; vm_compute; reflexivity. Qed.



(** ** Keyword lines *)

Module KeywordFacts.
Import PyFacts.

Ltac each_char c :=
  destruct c as [[] [] [] [] [] [] [] []]; vm_compute; try reflexivity; try discriminate.

Lemma fold_is_space_or_comma (c : ascii) :
  isspace (lower_char (comma_to_space c)) = comma_or_space c.
Proof. each_char c. Qed.

Lemma comma_to_space_fix (c : ascii) :
  comma_or_space c = false -> comma_to_space c = c.
Proof. each_char c. Qed.

Lemma lower_char_idem (c : ascii) : lower_char (lower_char c) = lower_char c.
Proof. each_char c. Qed.

Lemma fold_char_eq (c d : ascii) :
  Ascii.eqb d " " = false -> Ascii.eqb d "," = false ->
  (lower_char (comma_to_space c) = d <-> lower_char c = d).
Proof.
  intros Hs Hc. unfold comma_to_space.
  destruct (Ascii.eqb c ",") eqn:E; [|tauto].
  apply Ascii.eqb_eq in E. subst c.
  split; intros <-; vm_compute in Hs, Hc; discriminate.
Qed.

Lemma fold_string_eq (s t : string) :
  all_chars (fun d => negb (Ascii.eqb d " ") && negb (Ascii.eqb d ","))%bool t = true ->
  (lower (replace_comma s) = t <-> lower s = t).
Proof.
  unfold lower, replace_comma. revert t.
  induction s as [|c r IH]; intros [|d t] Ht; cbn [smap]; try tauto;
    try (split; discriminate).
  cbn [all_chars] in Ht. apply andb_prop in Ht. destruct Ht as [Hd Ht].
  apply andb_prop in Hd. destruct Hd as [Hs Hc].
  apply negb_true_iff in Hs, Hc.
  pose proof (fold_char_eq c d Hs Hc) as Hch. pose proof (IH t Ht) as Hr.
  split; intros H; injection H as H1 H2; f_equal; tauto.
Qed.

Lemma keyword_prefix_test (rest : string) :
  String.eqb (slice_to 8 (lower (replace_comma rest))) "keyword:"
  = String.eqb (lower (slice_to 8 rest)) "keyword:".
Proof.
  unfold lower, replace_comma. rewrite !slice_to_smap.
  pose proof (fold_string_eq (slice_to 8 rest) "keyword:" eq_refl) as H.
  unfold lower, replace_comma in H.
  destruct (String.eqb_spec (smap lower_char (smap comma_to_space (slice_to 8 rest))) "keyword:") as [E|E];
    destruct (String.eqb_spec (smap lower_char (slice_to 8 rest)) "keyword:") as [E'|E'];
    tauto.
Qed.

Lemma token_without_comma (t : string) :
  token_for comma_or_space t = true ->
  smap (fun c => lower_char (comma_to_space c)) t = lower t.
Proof.
  destruct t as [|c r]; [reflexivity|]. unfold token_for, lower.
  generalize (String c r). clear c r. intros s.
  induction s as [|c r IH]; intros H; [reflexivity|].
  cbn [all_chars] in H. apply andb_prop in H. destruct H as [Hc Hr].
  apply negb_true_iff in Hc. cbn [smap].
  now rewrite (comma_to_space_fix c Hc), (IH Hr).
Qed.

(** The tokens of the folded text are the folded pieces between commas
    and whitespace. *)
Lemma split_folded (s : string) :
  split (lower (replace_comma s)) = map lower (split_by comma_or_space s).
Proof.
  unfold split, lower at 1, replace_comma. rewrite smap_smap.
  rewrite (split_by_smap isspace comma_or_space _ s fold_is_space_or_comma).
  pose proof (split_by_tokens comma_or_space s) as H.
  induction H as [|t ts Ht _ IH]; [reflexivity|].
  cbn [map]. now rewrite (token_without_comma t Ht), IH.
Qed.

Lemma comment_keywords_spec (rest : string) :
  comment_keywords rest =
  if String.eqb (lower (slice_to 8 rest)) "keyword:"
  then map lower (split_by comma_or_space (slice_from 8 rest))
  else [].
Proof.
  unfold comment_keywords. rewrite keyword_prefix_test.
  destruct (String.eqb (lower (slice_to 8 rest)) "keyword:"); [|reflexivity].
  unfold lower at 1, replace_comma at 1. rewrite !slice_from_smap.
  apply split_folded.
Qed.

(** Every collected keyword is its own lowercase. *)
Lemma comment_keywords_lower (rest k : string) :
  In k (comment_keywords rest) -> lower k = k.
Proof.
  rewrite comment_keywords_spec.
  destruct (String.eqb (lower (slice_to 8 rest)) "keyword:"); [|contradiction].
  intros H. apply in_map_iff in H. destruct H as (t & <- & _).
  unfold lower. rewrite smap_smap. apply smap_ext, lower_char_idem.
Qed.

Lemma keywords_of_lower (fd : list string) (k : string) :
  In k (keywords_of fd) -> lower k = k.
Proof.
  unfold keywords_of. intros H. apply in_flat_map in H.
  destruct H as (line & _ & H). unfold line_keywords in H.
  destruct (re_comment line) as [rest|]; [|contradiction].
  now apply (comment_keywords_lower rest).
Qed.

Lemma mem_In (x : string) (l : list string) : mem x l = true <-> In x l.
Proof.
  unfold mem. rewrite existsb_exists. split.
  - intros (y & Hy & E). apply String.eqb_eq in E. now subst.
  - intros H. exists x. split; [exact H | apply String.eqb_refl].
Qed.

(** The test for [freeBC] after the loop never succeeds. *)
Lemma freeBC_never_collected (fd : list string) :
  mem "freeBC" (keywords_of fd) = false.
Proof.
  destruct (mem "freeBC" (keywords_of fd)) eqn:E; [|reflexivity].
  apply mem_In, keywords_of_lower in E. vm_compute in E. discriminate.
Qed.

End KeywordFacts.

Section KeywordClaims.

Context {N : Numbers}.
Import KeywordFacts.

(** C3, as amended. A line that begins, after leading whitespace, with [#]
    or [!] adds tokens to the keywords exactly when the eight characters
    that follow the marker at once, nothing trimmed, read [keyword:]
    whatever their case; the tokens are the pieces of the rest of the line
    between commas and whitespace, in lowercase.  Positions and symbols
    are left as they are. *)
Theorem keyword_line_rule (line rest : string) (keywords : list string)
    (ps : list vec) (syms : list string) :
  re_comment line = Some rest ->
  scan_line (keywords, ps, syms) line =
  OK ((keywords ++
       (if String.eqb (lower (slice_to 8 rest)) "keyword:"
        then map lower (split_by comma_or_space (slice_from 8 rest))
        else []))%list, ps, syms).
Proof.
  intros H. unfold scan_line. rewrite H, comment_keywords_spec. reflexivity.
Qed.

End KeywordClaims.

Lemma keyword_line_rule_witness :
  scan_line ([], [], []) Examples.shouted_keywords
  = OK (["reduced"; "bohr"], [], []).
Proof.
  refine (keyword_line_rule Examples.shouted_keywords
            ("keyword: Reduced,BOHR" ++ nl) [] [] [] _).
  vm_compute; reflexivity.
Defined.

(** C3, as the specification states it, fails: blanks between the marker
    and [keyword:] make the line an ordinary comment. *)
Lemma keyword_after_blanks_counterexample : ~ spec_keyword_rule.
Proof.
  intros H.
  specialize (H Examples.blank_keyword ("  keyword: reduced" ++ nl) [] [] [] eq_refl).
  vm_compute in H. discriminate H.
Qed.

(** ** The boundary keywords *)

Section BoundaryFacts.

Context {N : Numbers}.
Import PyFacts KeywordFacts.

(** X4. The read fails with [UnsupportedFeature] exactly when the header
    and the node lines are read and [surface] is among the keywords of the
    body; what the test for [freeBC] adds is nothing. *)
Lemma unsupported_only_surface (input : string) :
  read_v_sim input = Err UnsupportedFeature <->
  (exists box nodes,
      parse_box (header_tokens (readlines input)) = OK box /\
      nodes_from [] (body (readlines input)) = OK nodes) /\
  mem "surface" (keywords_of (body (readlines input))) = true.
Proof.
  unfold read_v_sim. rewrite read_lines_nodes.
  destruct (parse_box (header_tokens (readlines input))) as [box|e] eqn:Eb;
    cbn [bind].
  - destruct (nodes_from [] (body (readlines input))) as [nodes|e] eqn:En;
      cbn [bind].
    + unfold assemble, new_atoms. rewrite freeBC_never_collected, orb_false_r.
      destruct (mem "surface" (keywords_of (body (readlines input)))).
      * split; [intros _; split; [now exists box, nodes | reflexivity] | reflexivity].
      * split; [|intros [_ H]; discriminate H].
        destruct (mem "angdeg" (keywords_of (body (readlines input)))).
        -- destruct (cellpar_to_cell box); cbn [bind];
             [destruct (mem "reduced" _); destruct (atoms_check _ _ _)|];
             discriminate.
        -- cbn [bind].
           destruct (mem "reduced" _); destruct (atoms_check _ _ _); discriminate.
    + rewrite (nodes_from_err_kind _ _ _ En).
      split; [discriminate | intros [(b & n & _ & H) _]; discriminate H].
  - rewrite (parse_box_err_kind _ _ Eb).
    split; [discriminate | intros [(b & n & H & _) _]; discriminate H].
Qed.

Lemma nodes_from_app (pre rest : list string) :
  forall keywords,
    nodes_from keywords (pre ++ rest) =
    (r1 <- nodes_from keywords pre ;;
     r2 <- nodes_from (keywords ++ keywords_of pre) rest ;;
     OK (r1 ++ r2)%list).
Proof.
  induction pre as [|l pre IH]; intros keywords.
  - cbn [app nodes_from bind]. change (keywords_of []) with (@nil string).
    rewrite app_nil_r.
    destruct (nodes_from keywords rest); reflexivity.
  - cbn [app nodes_from].
    change (keywords_of (l :: pre)) with (line_keywords l ++ keywords_of pre)%list.
    destruct (is_node l) eqn:Hl.
    + rewrite (is_node_line_keywords l Hl). cbn [app].
      destruct (parse_node (node_unit keywords) l) as [a|e]; cbn [bind];
        [|reflexivity].
      rewrite IH. destruct (nodes_from keywords pre) as [r1|e]; cbn [bind];
        [|reflexivity].
      destruct (nodes_from (keywords ++ keywords_of pre) rest); reflexivity.
    + rewrite IH, app_assoc. reflexivity.
Qed.

Lemma nodes_from_length (fd : list string) :
  forall keywords r,
    nodes_from keywords fd = OK r ->
    List.length r = List.length (filter is_node fd).
Proof.
  induction fd as [|l fd IH]; intros keywords r; cbn [nodes_from filter].
  - intros H. injection H as <-. reflexivity.
  - destruct (is_node l); [|apply IH].
    destruct (parse_node (node_unit keywords) l) as [a|e]; cbn [bind];
      [|discriminate].
    destruct (nodes_from keywords fd) as [r'|e] eqn:E; cbn [bind];
      [|discriminate].
    intros H. injection H as <-. cbn [List.length]. f_equal. now apply (IH keywords).
Qed.

(** The unit of a node line is that of the keywords of the lines before
    it, while the keywords the final tests see are those of the whole
    body. *)
Lemma node_unit_from_earlier_lines (pre post : list string) (line : string)
    (keywords : list string) (ps : list vec) (syms : list string) :
  scan ([], [], []) (pre ++ line :: post) = OK (keywords, ps, syms) ->
  is_node line = true ->
  keywords = keywords_of (pre ++ line :: post) /\
  exists a,
    parse_node (node_unit (keywords_of pre)) line = OK a /\
    nth_error ps (List.length (filter is_node pre)) = Some (fst a) /\
    nth_error syms (List.length (filter is_node pre)) = Some (snd a).
Proof.
  rewrite scan_nodes, nodes_from_app. intros H Hn.
  destruct (nodes_from [] pre) as [r1|] eqn:E1; cbn [bind] in H; [|discriminate].
  cbn [app nodes_from] in H. rewrite Hn in H.
  destruct (parse_node (node_unit (keywords_of pre)) line) as [a|] eqn:Ea;
    cbn [bind] in H; [|discriminate].
  destruct (nodes_from (keywords_of pre) post) as [r2|]; cbn [bind] in H;
    [|discriminate].
  injection H as <- <- <-. split; [reflexivity|].
  exists a. split; [reflexivity|].
  rewrite <- (nodes_from_length _ _ _ E1), !map_app.
  split.
  - rewrite nth_error_app2 by (rewrite length_map; lia).
    now rewrite length_map, Nat.sub_diag.
  - rewrite nth_error_app2 by (rewrite length_map; lia).
    now rewrite length_map, Nat.sub_diag.
Qed.

End BoundaryFacts.

(** C4. A file that declares [freeBC] is read without an error: the
    keywords are folded to lowercase when they are collected, and the
    loop's result is tested for the spelling [freeBC]. *)
Theorem freeBC_file_accepted :
  read_v_sim Examples.free_boundary = OK Examples.free_boundary_atoms.
Proof. vm_compute. reflexivity. Qed.

(** C10. A [freeBC] keyword after the node lines has no effect either,
    where a [surface] keyword at the same place makes the read fail. *)
Theorem freeBC_after_nodes_ignored :
  read_v_sim Examples.free_boundary_last = OK Examples.free_boundary_atoms /\
  read_v_sim Examples.surface_last = Err UnsupportedFeature.
Proof. split; vm_compute; reflexivity. Qed.

(** ** The writer *)

Section WriterFacts.

Context {N : Numbers}.
Import PyFacts.









End WriterFacts.


(** ** Reading what the writer wrote *)

Section RoundTripFacts.

Context {N : Numbers}.
Import PyFacts.

Lemma append_assoc (a b c : string) : ((a ++ b) ++ c = a ++ (b ++ c))%string.
Proof. induction a as [|x a IH]; [reflexivity|]. cbn [append]. now rewrite IH. Qed.

Lemma readlines_written (out : list string) :
  Forall is_line out -> readlines (written out) = out.
Proof.
  induction 1 as [|l out (b & -> & Hb) _ IH]; [reflexivity|].
  cbn [written]. rewrite append_assoc, (readlines_line b _ Hb), IH. reflexivity.
Qed.

Lemma spaced_line (ts : list string) :
  Forall (fun t => is_token t = true) ts -> is_line (spaced ts).
Proof.
  induction 1 as [|t ts Ht Hts IH].
  - exists EmptyString. split; reflexivity.
  - destruct ts as [|t' ts'].
    + exists t. split; [reflexivity | now apply token_no_newline].
    + destruct IH as (b & Eb & Hb). exists (t ++ " " ++ b)%string. split.
      * change (spaced (t :: t' :: ts')) with (t ++ " " ++ spaced (t' :: ts'))%string.
        now rewrite Eb, !append_assoc.
      * rewrite !all_chars_app, (token_no_newline t Ht), Hb. reflexivity.
Qed.

Lemma split_spaced (ts : list string) :
  Forall (fun t => is_token t = true) ts -> split (spaced ts) = ts.
Proof.
  induction 1 as [|t ts Ht Hts IH]; [reflexivity|].
  destruct ts as [|t' ts'].
  - cbn [spaced]. unfold nl. now rewrite (split_token_space t EmptyString newline Ht eq_refl).
  - change (spaced (t :: t' :: ts')) with (t ++ String " " (spaced (t' :: ts')))%string.
    now rewrite (split_token_space t _ " "%char Ht eq_refl), IH.
Qed.

Lemma format3_spaced (a b c : num) :
  format3 a b c = spaced [fmt a; fmt b; fmt c].
Proof. reflexivity. Qed.

Lemma format_atom_spaced (x y z : num) (s : string) :
  format_atom ((x, y, z), s) = spaced [fmt x; fmt y; fmt z; s].
Proof. reflexivity. Qed.

Lemma atom_line_tokens (v : vec) (s : string) :
  well_printed3 v -> is_token s = true ->
  Forall (fun t => is_token t = true)
         (let '(x, y, z) := v in [fmt x; fmt y; fmt z; s]).
Proof.
  destruct v as [[x y] z]. intros ((Hx & _) & (Hy & _) & (Hz & _)) Hs.
  repeat constructor; try assumption; now apply is_plain_token_token.
Qed.

Lemma atom_line_node (v : vec) (s : string) :
  well_printed3 v -> is_token s = true ->
  is_line (format_atom (v, s)) /\
  is_node (format_atom (v, s)) = true /\
  node_fields (format_atom (v, s)) = OK (v, s).
Proof.
  intros Hv Hs. pose proof (atom_line_tokens v s Hv Hs) as Ht.
  destruct v as [[x y] z]. destruct Hv as ((Hx & Fx) & (Hy & Fy) & (Hz & Fz)).
  rewrite format_atom_spaced. split; [now apply spaced_line|]. split.
  - unfold is_node.
    change (spaced [fmt x; fmt y; fmt z; s])
      with (fmt x ++ (" " ++ spaced [fmt y; fmt z; s]))%string at 1.
    rewrite (re_comment_plain _ _ Hx).
    now rewrite re_node_tokens, (split_spaced _ Ht).
  - unfold node_fields. rewrite (split_spaced _ Ht), Fx, Fy, Fz. reflexivity.
Qed.

Lemma raw_nodes_atom_lines (l : list (vec * string)) :
  Forall (fun a => well_printed3 (fst a) /\ is_token (snd a) = true) l ->
  Forall is_line (map format_atom l) /\
  raw_nodes (map format_atom l) = OK l /\
  keywords_of (map format_atom l) = [].
Proof.
  induction 1 as [|[v s] l [Hv Hs] _ (IH1 & IH2 & IH3)].
  - repeat split. constructor.
  - destruct (atom_line_node v s Hv Hs) as (L & Nd & Fd).
    cbn [map raw_nodes keywords_of flat_map]. rewrite Nd, Fd.
    split; [now constructor|]. split.
    + cbn [bind]. now rewrite IH2.
    + rewrite (is_node_line_keywords _ Nd). exact IH3.
Qed.


End RoundTripFacts.

Section RoundTrip.

Context {N : Numbers}.
Import PyFacts.

Lemma combine_maps {A B C : Type} (f : A -> B) (g : A -> C) (l : list A) :
  combine (map f l) (map g l) = map (fun a => (f a, g a)) l.
Proof. induction l as [|a l IH]; [reflexivity|]. cbn [map combine]. now rewrite IH. Qed.

Lemma Forall_combine {A B : Type} (P : A -> Prop) (Q : B -> Prop)
    (a : list A) (b : list B) :
  Forall P a -> Forall Q b ->
  Forall (fun x => P (fst x) /\ Q (snd x)) (combine a b).
Proof.
  intros Ha. revert b. induction Ha as [|x a Hx _ IH]; intros b Hb; [constructor|].
  destruct Hb as [|y b Hy Hb]; [constructor|].
  cbn [combine]. constructor; [split; assumption | now apply IH].
Qed.

Lemma well_printed_coordinates (sp : list vec) :
  Forall well_printed (flat_map (fun v => let '(x, y, z) := v in [x; y; z]) sp) ->
  Forall well_printed3 sp.
Proof.
  induction sp as [|[[x y] z] sp IH]; intros H; [constructor|].
  cbn [flat_map app] in H.
  inversion H as [|? ? Hx H1]; subst. inversion H1 as [|? ? Hy H2]; subst.
  inversion H2 as [|? ? Hz H3]; subst.
  constructor; [exact (conj Hx (conj Hy Hz)) | now apply IH].
Qed.




End RoundTrip.



(** ** Further properties of the reader *)

Section ReaderMore.

Context {N : Numbers}.
Import PyFacts KeywordFacts.

Lemma parse_node_symbol (u : num) (line : string) (a : vec * string) :
  parse_node u line = OK a -> snd a = nth 3 (split line) EmptyString.
Proof.
  unfold parse_node, node_fields.
  destruct (split line) as [|f0 [|f1 [|f2 [|f3 rest]]]]; cbn [bind];
    try discriminate.
  destruct (float_of f0); cbn [bind]; [|discriminate].
  destruct (float_of f1); cbn [bind]; [|discriminate].
  destruct (float_of f2); cbn [bind]; [|discriminate].
  intros H. injection H as <-. reflexivity.
Qed.

Lemma nodes_from_symbols (fd : list string) :
  forall keywords r,
    nodes_from keywords fd = OK r ->
    map snd r = map (fun l => nth 3 (split l) EmptyString) (filter is_node fd).
Proof.
  induction fd as [|l fd IH]; intros keywords r; cbn [nodes_from filter].
  - intros H. injection H as <-. reflexivity.
  - destruct (is_node l); [|apply IH].
    destruct (parse_node (node_unit keywords) l) as [a|e] eqn:Ea; cbn [bind];
      [|discriminate].
    destruct (nodes_from keywords fd) as [r'|e] eqn:E; cbn [bind];
      [|discriminate].
    intros H. injection H as <-. cbn [map].
    now rewrite (parse_node_symbol _ _ _ Ea), (IH keywords r' E).
Qed.

(** X1. After a successful read the symbols are the fourth tokens of the
    node lines of the body, in the order of the file and letter for letter,
    and there are as many positions as symbols. *)
Theorem symbols_in_file_order (input : string) (r : Atoms num) :
  read_v_sim input = OK r ->
  symbols r = map (fun l => nth 3 (split l) EmptyString)
                  (filter is_node (body (readlines input))) /\
  List.length (coords_list (positions r)) = List.length (symbols r).
Proof.
  unfold read_v_sim. intros Hr.
  destruct (read_lines_ok _ _ Hr) as (box & nodes & _ & Hn & Ha).
  apply assemble_ok in Ha. destruct Ha as (_ & _ & Hp & Hs).
  rewrite Hs, Hp. split; [now apply (nodes_from_symbols _ [])|].
  destruct (mem "reduced" _); cbn [coords_list]; now rewrite !length_map.
Qed.

Lemma nodes_from_none (fd : list string) :
  forall keywords, filter is_node fd = [] -> nodes_from keywords fd = OK [].
Proof.
  induction fd as [|l fd IH]; intros keywords; cbn [filter nodes_from];
    [reflexivity|].
  destruct (is_node l); [discriminate | apply IH].
Qed.

(** X2. A file whose header holds at least six numbers and whose body has
    no node line and no [surface], [angdeg] or [reduced] keyword is read
    without an error whenever the [Atoms] class accepts an object without
    atoms: the triangular cell of the header, no position, no symbol. *)
Theorem no_node_lines_no_atoms (input : string)
    (b0 b1 b2 b3 b4 b5 : num) (rest : list num) :
  let fd := readlines input in
  let keywords := keywords_of (body fd) in
  let c := lower_triangular (file_unit keywords) b0 b1 b2 b3 b4 b5 in
  parse_box (header_tokens fd) = OK (b0 :: b1 :: b2 :: b3 :: b4 :: b5 :: rest) ->
  filter is_node (body fd) = [] ->
  mem "surface" keywords = false ->
  mem "angdeg" keywords = false ->
  mem "reduced" keywords = false ->
  atoms_check c (Cartesian []) [] = None ->
  read_v_sim input = OK (mkAtoms c (Cartesian []) []).
Proof.
  cbv zeta. intros Hb Hn Hs Ha Hr Hk. unfold read_v_sim.
  rewrite read_lines_nodes, Hb, (nodes_from_none _ [] Hn). cbn [bind map].
  unfold assemble. rewrite Hs, Ha, Hr, freeBC_never_collected. cbn [orb bind].
  rewrite triangular_cell_six. unfold new_atoms.
  match goal with
  | |- match ?x with _ => _ end = _ =>
      assert (E : x = None) by exact Hk; rewrite E
  end.
  reflexivity.
Qed.


Lemma nodes_from_contributes (fd : list string) :
  forall keywords,
    nodes_from keywords (filter contributes fd) = nodes_from keywords fd.
Proof.
  induction fd as [|l fd IH]; intros keywords; [reflexivity|].
  cbn [filter]. unfold contributes at 1. cbn [nodes_from].
  destruct (is_node l) eqn:Hl; cbn [orb].
  - cbn [nodes_from]. rewrite Hl, IH. reflexivity.
  - destruct (line_keywords l) as [|k ks] eqn:Hk.
    + now rewrite app_nil_r.
    + cbn [nodes_from]. rewrite Hl, Hk. apply IH.
Qed.

Lemma keywords_of_contributes (fd : list string) :
  keywords_of (filter contributes fd) = keywords_of fd.
Proof.
  induction fd as [|l fd IH]; [reflexivity|].
  cbn [filter]. unfold contributes at 1.
  change (keywords_of (l :: fd)) with (line_keywords l ++ keywords_of fd)%list.
  destruct (is_node l) eqn:Hl; cbn [orb].
  - change (keywords_of (l :: filter contributes fd))
      with (line_keywords l ++ keywords_of (filter contributes fd))%list.
    now rewrite IH.
  - destruct (line_keywords l) as [|k ks] eqn:Hk; [exact IH|].
    change (keywords_of (l :: filter contributes fd))
      with (line_keywords l ++ keywords_of (filter contributes fd))%list.
    now rewrite IH, Hk.
Qed.

(** X5. Only the node lines and the comment lines that declare keywords
    count: two files with the same header tokens whose bodies agree on
    these lines are read alike, whatever blank lines, lines of fewer than
    four tokens, other comments or title they hold. *)
Theorem ignored_lines_irrelevant (input input' : string) :
  header_tokens (readlines input) = header_tokens (readlines input') ->
  filter contributes (body (readlines input))
  = filter contributes (body (readlines input')) ->
  read_v_sim input = read_v_sim input'.
Proof.
  intros Hh Hb. unfold read_v_sim. rewrite !read_lines_nodes, Hh.
  rewrite <- (nodes_from_contributes (body (readlines input))),
          <- (keywords_of_contributes (body (readlines input))), Hb.
  now rewrite nodes_from_contributes, keywords_of_contributes.
Qed.

Lemma space_not_marker (c : ascii) : isspace c = true -> is_marker c = false.
Proof. each_char c. Qed.

Lemma re_comment_skip_space (line : string) :
  re_comment (skip_space line) = re_comment line.
Proof.
  induction line as [|c r IH]; [reflexivity|].
  cbn [skip_space]. destruct (isspace c) eqn:Hc; [|reflexivity].
  rewrite IH. cbn [re_comment]. now rewrite (space_not_marker c Hc), Hc.
Qed.

Lemma skip_space_idem (line : string) :
  skip_space (skip_space line) = skip_space line.
Proof.
  induction line as [|c r IH]; [reflexivity|].
  cbn [skip_space]. destruct (isspace c) eqn:Hc; [exact IH|].
  cbn [skip_space]. now rewrite Hc.
Qed.

Lemma scan_line_skip_space (st : scan_state) (line : string) :
  scan_line st (skip_space line) = scan_line st line.
Proof.
  destruct st as [[keywords ps] syms]. unfold scan_line.
  rewrite re_comment_skip_space. destruct (re_comment line); [reflexivity|].
  unfold re_node, parse_node, node_fields.
  now rewrite skip_space_idem, split_skip_space.
Qed.

Lemma scan_indented (b b' : list string) :
  Forall2 (fun l l' => skip_space l = skip_space l') b b' ->
  forall st, scan st b = scan st b'.
Proof.
  induction 1 as [|l l' b b' Hl _ IH]; intros st; [reflexivity|].
  cbn [scan]. rewrite <- (scan_line_skip_space st l), Hl, scan_line_skip_space.
  destruct (scan_line st l'); cbn [bind]; [apply IH | reflexivity].
Qed.

(** X6. Whitespace at the beginning of a line of the body changes nothing:
    two files with the same header tokens whose body lines agree line by
    line once the leading whitespace is taken off are read alike. *)
Theorem indentation_irrelevant (input input' : string) :
  header_tokens (readlines input) = header_tokens (readlines input') ->
  Forall2 (fun l l' => skip_space l = skip_space l')
          (body (readlines input)) (body (readlines input')) ->
  read_v_sim input = read_v_sim input'.
Proof.
  intros Hh Hb. unfold read_v_sim, read_lines.
  now rewrite !header_line_tokens, Hh, (scan_indented _ _ Hb).
Qed.

Lemma lower_keeps_classes (c : ascii) :
  is_marker (lower_char c) = is_marker c /\ isspace (lower_char c) = isspace c.
Proof. split; each_char c. Qed.

Lemma lower_fold (c : ascii) :
  lower_char (comma_to_space (lower_char c)) = lower_char (comma_to_space c).
Proof. each_char c. Qed.

Lemma re_comment_lower (line : string) :
  re_comment (lower line) = option_map lower (re_comment line).
Proof.
  induction line as [|c r IH]; [reflexivity|].
  change (lower (String c r)) with (String (lower_char c) (lower r)).
  cbn [re_comment]. destruct (lower_keeps_classes c) as [-> ->].
  destruct (is_marker c); [reflexivity|].
  destruct (isspace c); [exact IH | reflexivity].
Qed.

Lemma comment_keywords_lower_text (rest : string) :
  comment_keywords (lower rest) = comment_keywords rest.
Proof.
  unfold comment_keywords.
  assert (E : lower (replace_comma (lower rest)) = lower (replace_comma rest)).
  { unfold lower, replace_comma. rewrite !smap_smap.
    apply smap_ext. intros c. apply lower_fold. }
  now rewrite E.
Qed.

Lemma line_keywords_lower (line : string) :
  line_keywords (lower line) = line_keywords line.
Proof.
  unfold line_keywords. rewrite re_comment_lower.
  destruct (re_comment line); [apply comment_keywords_lower_text | reflexivity].
Qed.

(** X7. Keyword lines are read without regard to letter case: two lines
    that agree once folded to lowercase declare the same keywords. *)
Theorem keywords_case_insensitive (line line' : string) :
  lower line = lower line' -> line_keywords line = line_keywords line'.
Proof.
  intros H. now rewrite <- (line_keywords_lower line), H, line_keywords_lower.
Qed.

(** X8. When [reduced] is declared ahead of the node lines, the numbers of
    every node line are handed over as scaled positions with the unit one,
    whether a keyword of the Bohr family is present or not. *)
Theorem reduced_positions_unscaled (input : string) (r : Atoms num)
    (pre post : list string) :
  read_v_sim input = OK r ->
  body (readlines input) = (pre ++ post)%list ->
  forallb (fun l => negb (is_node l)) pre = true ->
  mem "reduced" (keywords_of pre) = true ->
  exists nodes,
    raw_nodes (body (readlines input)) = OK nodes /\
    positions r =
      Scaled (map (fun a => let '(x, y, z) := fst a in
                            (mul one x, mul one y, mul one z)) nodes).
Proof.
  unfold read_v_sim. intros Hr Hbody Hpre Hred.
  destruct (read_lines_ok _ _ Hr) as (box & nodes & _ & Hn & Ha).
  apply assemble_ok in Ha. destruct Ha as (_ & _ & Hp & _).
  assert (Hall : mem "reduced" (keywords_of (body (readlines input))) = true)
    by now rewrite Hbody, keywords_of_app, mem_app, Hred.
  rewrite Hall in Hp.
  rewrite (nodes_from_unit one) in Hn.
  - destruct (raw_nodes (body (readlines input))) as [raw|] eqn:Eraw;
      cbn [bind] in Hn; [|discriminate].
    injection Hn as <-. exists raw. split; [reflexivity|].
    rewrite Hp, map_map. reflexivity.
  - intros p line q E Hline. rewrite Hbody in E.
    destruct (node_after_prefix _ _ _ _ _ Hpre E Hline) as (p' & -> & _).
    cbn [app]. unfold node_unit.
    now rewrite keywords_of_app, mem_app, Hred.
Qed.

(** X9. Without [angdeg] only the first six header numbers count: two
    files with the same body whose headers are read and agree on their
    first six numbers are read alike. *)
Theorem extra_header_numbers_ignored (input input' : string)
    (box box' : list num) :
  body (readlines input) = body (readlines input') ->
  parse_box (header_tokens (readlines input)) = OK box ->
  parse_box (header_tokens (readlines input')) = OK box' ->
  firstn 6 box = firstn 6 box' ->
  mem "angdeg" (keywords_of (body (readlines input))) = false ->
  read_v_sim input = read_v_sim input'.
Proof.
  intros Hb Hbox Hbox' H6 Ha. unfold read_v_sim.
  rewrite !read_lines_nodes, Hbox, Hbox', <- Hb. cbn [bind].
  destruct (nodes_from [] (body (readlines input))) as [nodes|]; cbn [bind];
    [|reflexivity].
  unfold assemble, triangular_cell, raw_cell. now rewrite Ha, H6.
Qed.

(** X11. With [angdeg] the cell comes from the header alone: two files
    that are read, both with [angdeg] and with the same header tokens, get
    the same cell, whatever units their bodies declare. *)
Theorem angdeg_cell_from_header (input input' : string) (r r' : Atoms num) :
  read_v_sim input = OK r -> read_v_sim input' = OK r' ->
  header_tokens (readlines input) = header_tokens (readlines input') ->
  mem "angdeg" (keywords_of (body (readlines input))) = true ->
  mem "angdeg" (keywords_of (body (readlines input'))) = true ->
  cell r = cell r'.
Proof.
  unfold read_v_sim. intros Hr Hr' Hh Ha Ha'.
  destruct (read_lines_ok _ _ Hr) as (box & nodes & Hb & _ & Has).
  destruct (read_lines_ok _ _ Hr') as (box' & nodes' & Hb' & _ & Has').
  apply assemble_ok in Has, Has'.
  destruct Has as (_ & Hc & _). destruct Has' as (_ & Hc' & _).
  rewrite Ha in Hc. rewrite Ha' in Hc'.
  rewrite Hh, Hb' in Hb. injection Hb as <-.
  rewrite Hc in Hc'. now injection Hc'.
Qed.

Lemma same_flags_app (k k' l : list string) :
  same_flags k k' -> same_flags (k ++ l) (k' ++ l).
Proof. intros H x Hx. now rewrite !mem_app, (H x Hx). Qed.

Lemma node_unit_flags (k k' : list string) :
  same_flags k k' -> node_unit k = node_unit k'.
Proof.
  intros H. unfold node_unit, bohr_family.
  rewrite (H "reduced"), (H "bohr"), (H "bohrd0"), (H "atomic"), (H "atomicd0");
    try reflexivity; cbn; tauto.
Qed.

Lemma nodes_from_flags (fd : list string) :
  forall k k', same_flags k k' -> nodes_from k fd = nodes_from k' fd.
Proof.
  induction fd as [|l fd IH]; intros k k' H; [reflexivity|].
  cbn [nodes_from]. destruct (is_node l).
  - now rewrite (node_unit_flags k k' H), (IH k k' H).
  - apply IH. now apply same_flags_app.
Qed.

Lemma assemble_flags (k k' : list string) (box : list num) (ps : list vec)
    (syms : list string) :
  same_flags k k' -> assemble k box ps syms = assemble k' box ps syms.
Proof.
  intros H. unfold assemble, triangular_cell, bohr_family.
  rewrite (H "surface"), (H "freeBC"), (H "angdeg"), (H "reduced"),
    (H "bohr"), (H "bohrd0"), (H "atomic"), (H "atomicd0");
    try reflexivity; cbn; tauto.
Qed.

(** X13. A comment line that declares none of the keywords the reader
    tests for ([periodic] and [angstroem], which the writer writes, are
    such) can be taken out of a file without a change in what is read. *)
Theorem untested_keywords_ignored (input input' : string)
    (pre post : list string) (line : string) :
  header_tokens (readlines input) = header_tokens (readlines input') ->
  body (readlines input) = (pre ++ line :: post)%list ->
  body (readlines input') = (pre ++ post)%list ->
  is_node line = false ->
  (forall x, In x tested_keywords -> mem x (line_keywords line) = false) ->
  read_v_sim input = read_v_sim input'.
Proof.
  intros Hh Hb Hb' Hn Hk. unfold read_v_sim.
  rewrite !read_lines_nodes, Hh, Hb, Hb'.
  destruct (parse_box (header_tokens (readlines input'))) as [box|];
    cbn [bind]; [|reflexivity].
  rewrite !nodes_from_app. cbn [nodes_from]. rewrite Hn.
  assert (F : same_flags (([] ++ keywords_of pre) ++ line_keywords line)
                         ([] ++ keywords_of pre)).
  { intros x Hx. now rewrite mem_app, (Hk x Hx), orb_false_r. }
  rewrite (nodes_from_flags post _ _ F).
  destruct (nodes_from [] pre) as [r1|]; cbn [bind]; [|reflexivity].
  destruct (nodes_from ([] ++ keywords_of pre) post) as [r2|]; cbn [bind];
    [|reflexivity].
  apply assemble_flags. intros x Hx.
  rewrite !keywords_of_app.
  change (keywords_of (line :: post)) with (line_keywords line ++ keywords_of post)%list.
  now rewrite !mem_app, (Hk x Hx).
Qed.

End ReaderMore.

(** ** Further properties of the writer *)

Section WriterMore.

Context {N : Numbers}.
Import PyFacts.

(** The loop of the reader on what the writer writes: the keywords are
    [reduced], [angstroem] and the keyword of the periodicity line, the
    nodes are the atoms with the unit one. *)
Lemma read_written_assemble (c : list num) (kw k : string)
    (atoms : list (vec * string)) :
  is_line kw -> is_node kw = false -> line_keywords kw = [k] ->
  Forall well_printed
    [entry c 0; entry c 3; entry c 4; entry c 6; entry c 7; entry c 8] ->
  Forall (fun a => well_printed3 (fst a) /\ is_token (snd a) = true) atoms ->
  read_v_sim (written (preamble c ++ [kw] ++ map format_atom atoms)) =
  assemble ["reduced"; "angstroem"; k]
    [entry c 0; entry c 3; entry c 4; entry c 6; entry c 7; entry c 8]
    (map (fun a => scale one (fst a)) atoms) (map snd atoms).
Proof.
  intros Lkw Nkw Kkw Hc Hat.
  destruct (raw_nodes_atom_lines atoms Hat) as (Lat & Rat & Kat).
  assert (H6 : Forall (fun x => is_token (fmt x) = true /\ float_of (fmt x) = Some x)
                 [entry c 0; entry c 3; entry c 4; entry c 6; entry c 7; entry c 8]).
  { eapply Forall_impl; [|exact Hc]. intros x [Hx Fx].
    split; [now apply is_plain_token_token | exact Fx]. }
  inversion H6 as [|? ? [T0 F0] H5]; subst. inversion H5 as [|? ? [T3 F3] H4]; subst.
  inversion H4 as [|? ? [T4 F4] H3]; subst. inversion H3 as [|? ? [T6 F6] H2]; subst.
  inversion H2 as [|? ? [T7 F7] H1]; subst. inversion H1 as [|? ? [T8 F8] _]; subst.
  assert (L1 : Forall (fun t => is_token t = true)
                 [fmt (entry c 0); fmt (entry c 3); fmt (entry c 4)])
    by (repeat constructor; assumption).
  assert (L2 : Forall (fun t => is_token t = true)
                 [fmt (entry c 6); fmt (entry c 7); fmt (entry c 8)])
    by (repeat constructor; assumption).
  unfold read_v_sim. rewrite readlines_written.
  2:{ unfold preamble. cbn [app]. rewrite !format3_spaced.
      repeat (apply Forall_cons); try (now apply spaced_line); try exact Lkw;
        try exact Lat; eexists; (split; [reflexivity | reflexivity]). }
  rewrite read_lines_nodes. unfold preamble.
  unfold header_tokens, body. cbn [app tl pop fst snd].
  rewrite !format3_spaced, (split_spaced _ L1), (split_spaced _ L2).
  cbn [app parse_box]. rewrite F0, F3, F4, F6, F7, F8. cbn [bind].
  change (kw_reduced :: kw_angstroem :: kw :: map format_atom atoms)
    with ([kw_reduced; kw_angstroem; kw] ++ map format_atom atoms)%list.
  rewrite nodes_from_app, keywords_of_app, Kat, app_nil_r.
  assert (Ek : keywords_of [kw_reduced; kw_angstroem; kw] = ["reduced"; "angstroem"; k]).
  { cbn [keywords_of flat_map]. rewrite Kkw. reflexivity. }
  assert (En : nodes_from [] [kw_reduced; kw_angstroem; kw] = OK []).
  { cbn [nodes_from]. rewrite Nkw. reflexivity. }
  rewrite En, Ek. cbn [bind app].
  rewrite (nodes_from_unit one).
  - rewrite Rat. cbn [bind]. now rewrite !map_map.
  - intros pre line post _ _. unfold node_unit. reflexivity.
Qed.

(** X10. What the writer writes for a structure that is periodic along x
    and z and free along y, the reader refuses: whenever the cell is
    converted, the printed numbers are plain tokens that [float] reads
    back and the symbols are tokens, the writer succeeds and the reader
    fails on its output with [UnsupportedFeature]. *)
Theorem surface_structure_not_read_back (r : Structure num) (c : list num) :
  cellpar_to_cell (cell_to_cellpar (s_cell r)) = Some c ->
  s_pbc r = (true, false, true) ->
  Forall well_printed (written_numbers r c) ->
  Forall (fun s => is_token s = true) (get_chemical_symbols r) ->
  snd (write_v_sim r) = OK tt /\
  read_v_sim (written (fst (write_v_sim r))) = Err UnsupportedFeature.
Proof.
  intros Hc Hpbc Hnum Hsym.
  unfold written_numbers in Hnum. apply Forall_app in Hnum.
  destruct Hnum as [H6 Hsp]. apply well_printed_coordinates in Hsp.
  pose proof (Forall_combine _ _ _ _ Hsp Hsym) as Hat.
  unfold write_v_sim, atom_lines. rewrite Hc, Hpbc.
  cbv beta iota zeta delta [andb orb negb Bool.eqb fst snd].
  split; [reflexivity|].
  rewrite (read_written_assemble c kw_surface "surface"); try assumption;
    try reflexivity.
  exists "#keyword: surface"%string. split; reflexivity.
Qed.

(** X12. Under the same conditions on numbers and symbols, a structure
    that is written leaves a text of one line for each string written:
    the title, two header lines, three keyword lines and one line for each
    atom. *)
Theorem written_lines_count (r : Structure num) (c : list num) :
  cellpar_to_cell (cell_to_cellpar (s_cell r)) = Some c ->
  snd (write_v_sim r) = OK tt ->
  Forall well_printed (written_numbers r c) ->
  Forall (fun s => is_token s = true) (get_chemical_symbols r) ->
  readlines (written (fst (write_v_sim r))) = fst (write_v_sim r) /\
  List.length (fst (write_v_sim r)) = (6 + List.length (s_atoms r))%nat.
Proof.
  intros Hc Hok Hnum Hsym.
  unfold written_numbers in Hnum. apply Forall_app in Hnum.
  destruct Hnum as [H6 Hsp]. apply well_printed_coordinates in Hsp.
  pose proof (Forall_combine _ _ _ _ Hsp Hsym) as Hat.
  destruct (raw_nodes_atom_lines _ Hat) as (Lat & _ & _).
  assert (Hlen : List.length (atom_lines r) = List.length (s_atoms r)).
  { unfold atom_lines, get_scaled_positions, get_chemical_symbols.
    now rewrite combine_maps, !length_map. }
  assert (Hpre : Forall is_line (preamble c)).
  { assert (T : Forall (fun x => is_token (fmt x) = true)
                  [entry c 0; entry c 3; entry c 4; entry c 6; entry c 7; entry c 8]).
    { eapply Forall_impl; [|exact H6]. intros x [Hx _].
      now apply is_plain_token_token. }
    inversion T as [|? ? T0 T5]; subst. inversion T5 as [|? ? T3 T4']; subst.
    inversion T4' as [|? ? T4 T3']; subst. inversion T3' as [|? ? T6 T2']; subst.
    inversion T2' as [|? ? T7 T1']; subst. inversion T1' as [|? ? T8 _]; subst.
    unfold preamble. rewrite !format3_spaced.
    repeat (apply Forall_cons); try apply Forall_nil;
      try (apply spaced_line; repeat constructor; assumption);
      eexists; (split; [reflexivity | reflexivity]). }
  assert (Hkw : forall kw, In kw [kw_periodic; kw_freeBC; kw_surface] -> is_line kw).
  { intros kw [<-|[<-|[<-|[]]]]; eexists; (split; [reflexivity | reflexivity]). }
  unfold write_v_sim in *. rewrite Hc in *.
  destruct (s_pbc r) as [[[] []] []];
    cbv beta iota zeta delta [andb orb negb Bool.eqb fst snd] in *;
    try discriminate Hok;
    (split;
     [ apply readlines_written; apply Forall_app; split; [exact Hpre|];
       apply Forall_cons; [apply Hkw; cbn; tauto | exact Lat]
     | rewrite !length_app, Hlen; reflexivity ]).
Qed.

End WriterMore.

(** ** The further properties on the example files *)

Lemma symbols_in_file_order_witness :
  symbols Examples.bohr_first_atoms
  = map (fun l => nth 3 (split l) EmptyString)
        (filter is_node (body (readlines Examples.bohr_first))) /\
  List.length (coords_list (positions Examples.bohr_first_atoms))
  = List.length (symbols Examples.bohr_first_atoms).
Proof.
  refine (symbols_in_file_order Examples.bohr_first Examples.bohr_first_atoms _).
  vm_compute; reflexivity.
Defined.

Lemma no_node_lines_no_atoms_witness :
  read_v_sim Examples.header_only
  = OK (mkAtoms [1; 0; 0; 0; 1; 0; 0; 0; 1]%Q (Cartesian []) []).
Proof.
  refine (no_node_lines_no_atoms Examples.header_only
            1%Q 0%Q 1%Q 0%Q 0%Q 1%Q [] _ _ _ _ _ _);
    vm_compute; reflexivity.
Defined.


Lemma ignored_lines_irrelevant_witness :
  read_v_sim Examples.bohr_first_padded = read_v_sim Examples.bohr_first.
Proof.
  refine (ignored_lines_irrelevant Examples.bohr_first_padded
            Examples.bohr_first _ _);
    vm_compute; reflexivity.
Defined.

Lemma indentation_irrelevant_witness :
  read_v_sim Examples.bohr_first_indented = read_v_sim Examples.bohr_first.
Proof.
  refine (indentation_irrelevant Examples.bohr_first_indented
            Examples.bohr_first _ _).
  - vm_compute; reflexivity.
  - vm_compute. repeat constructor.
Defined.

Lemma keywords_case_insensitive_witness :
  line_keywords ("#KEYWORD: Bohr" ++ nl) = line_keywords ("#keyword: bohr" ++ nl).
Proof.
  refine (keywords_case_insensitive _ _ _). vm_compute; reflexivity.
Defined.

Lemma reduced_positions_unscaled_witness :
  exists nodes,
    raw_nodes (body (readlines Examples.reduced_bohr)) = OK nodes /\
    positions Examples.reduced_bohr_atoms =
      Scaled (map (fun a => let '(x, y, z) := fst a in
                            (mul one x, mul one y, mul one z)) nodes).
Proof.
  refine (reduced_positions_unscaled Examples.reduced_bohr
            Examples.reduced_bohr_atoms
            ["#keyword: reduced, bohr" ++ nl] ["0.5 0.5 0.5 H" ++ nl] _ _ _ _);
    vm_compute; reflexivity.
Defined.

Lemma extra_header_numbers_ignored_witness :
  read_v_sim Examples.eight_numbers = read_v_sim Examples.bohr_first.
Proof.
  refine (extra_header_numbers_ignored Examples.eight_numbers Examples.bohr_first
            [1; 0; 1; 0; 0; 1; 7; 8]%Q [1; 0; 1; 0; 0; 1]%Q _ _ _ _ _);
    vm_compute; reflexivity.
Defined.

Lemma angdeg_cell_from_header_witness :
  cell Examples.angdeg_plain_atoms = cell Examples.bohr_angdeg_atoms.
Proof.
  refine (angdeg_cell_from_header Examples.angdeg_plain Examples.bohr_angdeg
            Examples.angdeg_plain_atoms Examples.bohr_angdeg_atoms _ _ _ _ _);
    vm_compute; reflexivity.
Defined.

Lemma surface_structure_not_read_back_witness :
  snd (write_v_sim Examples.cube_surface) = OK tt /\
  read_v_sim (written (fst (write_v_sim Examples.cube_surface)))
  = Err UnsupportedFeature.
Proof.
  refine (surface_structure_not_read_back Examples.cube_surface
            [2; 0; 0; 0; 2; 0; 0; 0; 2]%Q _ _ _ _).
  - vm_compute; reflexivity.
  - reflexivity.
  - repeat (apply Forall_cons || apply Forall_nil); split; vm_compute; reflexivity.
  - repeat (apply Forall_cons || apply Forall_nil); vm_compute; reflexivity.
Defined.

Lemma written_lines_count_witness :
  readlines (written (fst (write_v_sim Examples.cube_periodic)))
  = fst (write_v_sim Examples.cube_periodic) /\
  List.length (fst (write_v_sim Examples.cube_periodic)) = 8%nat.
Proof.
  refine (written_lines_count Examples.cube_periodic
            [2; 0; 0; 0; 2; 0; 0; 0; 2]%Q _ _ _ _).
  - vm_compute; reflexivity.
  - vm_compute; reflexivity.
  - repeat (apply Forall_cons || apply Forall_nil); split; vm_compute; reflexivity.
  - repeat (apply Forall_cons || apply Forall_nil); vm_compute; reflexivity.
Defined.

Lemma untested_keywords_ignored_witness :
  read_v_sim Examples.bohr_first_periodic = read_v_sim Examples.bohr_first.
Proof.
  refine (untested_keywords_ignored Examples.bohr_first_periodic
            Examples.bohr_first
            ["#keyword: bohr" ++ nl] ["1 0 0 H" ++ nl]
            ("#keyword: angstroem, periodic" ++ nl) _ _ _ _ _);
    try (vm_compute; reflexivity).
  intros x Hx. vm_compute in Hx.
  repeat (destruct Hx as [<-|Hx]; [vm_compute; reflexivity|]); contradiction.
Defined.
